(** * GC9A01 display driver (gc9a01.py): transaction and flush pipeline

    A shallow embedding of the MicroPython driver class [GC9A01] and the
    properties of its construction, initialization, flush, monitor and
    teardown paths.

    Python integers are unbounded, so every integer is a [Z]; [//] is
    [Z.div] (floor division, sign of the divisor), [>>] is [Z.shiftr] and
    [&] is [Z.land].  The calls into [espidf], [lvgl] and [lvesp32] are
    recorded, in program order, as a trace of [event]s; what those calls
    return (allocated pointers, status codes, the cycle counter) is an
    input of the model.  [print] calls are not recorded. *)

From Stdlib Require Import ZArith Lia.
From stdpp Require Import base numbers list gmap strings.

Local Open Scope Z_scope.

Module GC9A01.

(** ** Constants (module level and class level) *)

Definition COLOR_MODE_RGB : Z := 0x08.
Definition COLOR_MODE_BGR : Z := 0x00.

Definition MADCTL_MH : Z := 0x04.
Definition MADCTL_ML : Z := 0x10.
Definition MADCTL_MV : Z := 0x20.
Definition MADCTL_MX : Z := 0x40.
Definition MADCTL_MY : Z := 0x80.

(** The dict [ROTATE]. *)
Definition ROTATE : gmap Z Z :=
  <[0 := 0x18]> (<[90 := 0x28]> (<[180 := 0x48]> (<[270 := 0x88]> ∅))).

Definition PORTRAIT : Z := MADCTL_MX.
Definition LANDSCAPE : Z := MADCTL_MV.

(** [TRANS_BUFFER_LEN = const(16)]: MicroPython substitutes the constant
    for the bare name in the method bodies. *)
Definition TRANS_BUFFER_LEN : Z := 16.

Definition SET_COLUMN : list Z := [0x2A].
Definition SET_PAGE : list Z := [0x2B].
Definition WRITE_RAM : list Z := [0x2C].

(** ** Data *)

(** The keyword arguments of [__init__]. *)
Record config := Config {
  miso : Z; mosi : Z; clk : Z; cs : Z; dc : Z; rst : Z;
  power : Z; backlight : Z; backlight_on : Z; power_on : Z;
  spihost : Z; mhz : Z; factor : Z; hybrid : bool;
  width : Z; height : Z; colormode : Z; rot : Z;
  invert : bool; double_buffer : bool; half_duplex : bool;
  asynchronous : bool; initialize : bool; rotation : Z
}.

(** The defaults of the signature ([spihost] is [esp.HSPI_HOST], 1 on
    the ESP32). *)
Definition default_config : config :=
  {| miso := 5; mosi := 18; clk := 19; cs := 13; dc := 12; rst := 4;
     power := 14; backlight := 15; backlight_on := 0; power_on := 0;
     spihost := 1; mhz := 60; factor := 4; hybrid := false;
     width := 240; height := 240; colormode := COLOR_MODE_RGB;
     rot := PORTRAIT; invert := false; double_buffer := true;
     half_duplex := true; asynchronous := false; initialize := true;
     rotation := 0 |}.

(** One entry of [init_cmds]: a dict with key ['cmd'] and optional keys
    ['data'] (a [bytes] object) and ['delay']. *)
Record init_cmd := InitCmd {
  cmd : Z;
  data : option (list Z);
  delay : option Z
}.

(** [lv_area_t]. *)
Record area := Area { x1 : Z; y1 : Z; x2 : Z; y2 : Z }.

(** Exceptions the driver raises.  Every [raise] of the source is a
    [RuntimeError] told apart by its message; [AttributeError] and
    [ZeroDivisionError] come from the interpreter. *)
Inductive exn :=
| RuntimeError (msg : string)
| AttributeError (attr : string)
| ZeroDivisionError.

Definition ResourceExhaustion : exn :=
  RuntimeError "Not enough DMA-able memory to allocate display buffer".
Definition TransportFailure_bus : exn :=
  RuntimeError "Failed initializing SPI bus".
Definition TransportFailure_device : exn :=
  RuntimeError "Failed adding SPI device".
Definition ConfigurationError : exn :=
  RuntimeError "Rotation must be 0, 90, 180 or 270.".
Definition SizeViolation : exn :=
  RuntimeError "Data too long, please use DMA!".

Inductive gpio_mode := INPUT | OUTPUT.

(** The calls that leave the driver. *)
Inductive event :=
| gpio_pad_select_gpio (pin : Z)
| gpio_set_direction (pin : Z) (mode : gpio_mode)
| gpio_set_pull_mode (pin : Z)
| gpio_set_level (pin level : Z)
| heap_caps_malloc (size : Z)
| heap_caps_free (ptr : Z)
| spi_bus_initialize (host max_transfer_sz : Z)
| spi_bus_add_device (host clock_speed_hz spics : Z) (halfduplex : bool)
| spi_bus_remove_device (handle : Z)
| spi_bus_free (host : option Z)
| spi_device_get_trans_result (handle : Z)
| spi_device_polling_transmit (handle : option Z) (length : Z) (tx : list Z)
| spi_device_queue_trans (handle : option Z) (length : Z) (tx_ptr tx_len : Z)
| lvesp32_init
| lvesp32_deinit
| disp_buf_init (b1 b2 : option Z) (size_px : Z)
| disp_drv_init
| disp_drv_register
| disp_drv_remove
| flush_ready
| utime_sleep_ms (ms : Z)
| uasyncio_sleep_ms (ms : Z).

(** The handles teardown releases. *)
Record resources := Resources {
  spi : option Z;
  self_spihost : option Z;
  buf1 : option Z;
  buf2 : option Z;
  trans_buffer : option Z
}.

(** [start_time_ptr.int_val], [end_time_ptr.int_val] and the two cycle
    accumulators. *)
Record timing := Timing {
  start_time : Z;
  end_time : Z;
  flush_acc_setup_cycles : Z;
  flush_acc_dma_cycles : Z
}.

Record monitor_acc := MonitorAcc {
  monitor_acc_time : Z;
  monitor_acc_px : Z;
  monitor_count : Z
}.

(** The instance.  [trans_mem] is the memory behind [trans_buffer], by
    byte offset: [cmd_trans_data], [word_trans_data] and the view taken in
    [send_data] are windows of 1, 4 and [len(data)] bytes onto it, all
    starting at offset 0.  [init_cmds] is [None] as long as the attribute
    has not been assigned (the class defines no [init_cmds]).  In [res],
    [None] is Python's [None]; [spi_assigned] tells whether the attribute
    [spi] exists at all: the class defines none and [disp_spi_init]
    assigns it in its last step (line 275), after the finalizer
    [self.deinit] is registered (line 212) and after the two raises of
    lines 264 and 274.  An object whose constructor raised there has no
    [spi]; no caller holds a reference to it, so only the finalizer,
    [deinit], ever runs on it.  [deinit] itself leaves [spi] assigned,
    to [None]. *)
Record driver := Driver {
  cfg : config;
  color_size : Z;
  cycles_in_ms : Z;
  buf_size : Z;
  self_rotation : Z;
  init_cmds : option (list init_cmd);
  res : resources;
  spi_assigned : bool;
  trans_mem : nat → Z;
  clock : timing;
  mon : monitor_acc
}.

Definition set_res (f : resources → resources) (d : driver) : driver :=
  {| cfg := cfg d; color_size := color_size d; cycles_in_ms := cycles_in_ms d;
     buf_size := buf_size d; self_rotation := self_rotation d;
     init_cmds := init_cmds d; res := f (res d);
     spi_assigned := spi_assigned d; trans_mem := trans_mem d;
     clock := clock d; mon := mon d |}.

(** [self.spi = ptr_to_spi.ptr_val]: the attribute exists from here on. *)
Definition assign_spi (h : option Z) (d : driver) : driver :=
  {| cfg := cfg d; color_size := color_size d; cycles_in_ms := cycles_in_ms d;
     buf_size := buf_size d; self_rotation := self_rotation d;
     init_cmds := init_cmds d;
     res := Resources h (self_spihost (res d)) (buf1 (res d)) (buf2 (res d))
                      (trans_buffer (res d));
     spi_assigned := true; trans_mem := trans_mem d;
     clock := clock d; mon := mon d |}.

Definition set_trans_mem (f : (nat → Z) → nat → Z) (d : driver) : driver :=
  {| cfg := cfg d; color_size := color_size d; cycles_in_ms := cycles_in_ms d;
     buf_size := buf_size d; self_rotation := self_rotation d;
     init_cmds := init_cmds d; res := res d;
     spi_assigned := spi_assigned d; trans_mem := f (trans_mem d);
     clock := clock d; mon := mon d |}.

Definition set_clock (f : timing → timing) (d : driver) : driver :=
  {| cfg := cfg d; color_size := color_size d; cycles_in_ms := cycles_in_ms d;
     buf_size := buf_size d; self_rotation := self_rotation d;
     init_cmds := init_cmds d; res := res d;
     spi_assigned := spi_assigned d; trans_mem := trans_mem d;
     clock := f (clock d); mon := mon d |}.

Definition set_baked (sz : Z) (rotv : Z) (cmds : option (list init_cmd))
    (d : driver) : driver :=
  {| cfg := cfg d; color_size := color_size d; cycles_in_ms := cycles_in_ms d;
     buf_size := sz; self_rotation := rotv;
     init_cmds := cmds; res := res d;
     spi_assigned := spi_assigned d; trans_mem := trans_mem d;
     clock := clock d; mon := mon d |}.

Definition set_buf_size (sz : Z) (d : driver) : driver :=
  set_baked sz (self_rotation d) (init_cmds d) d.
Definition set_self_rotation (rotv : Z) (d : driver) : driver :=
  set_baked (buf_size d) rotv (init_cmds d) d.
Definition set_init_cmds (cmds : list init_cmd) (d : driver) : driver :=
  set_baked (buf_size d) (self_rotation d) (Some cmds) d.

Definition set_mon (f : monitor_acc → monitor_acc) (d : driver) : driver :=
  {| cfg := cfg d; color_size := color_size d; cycles_in_ms := cycles_in_ms d;
     buf_size := buf_size d; self_rotation := self_rotation d;
     init_cmds := init_cmds d; res := res d;
     spi_assigned := spi_assigned d; trans_mem := trans_mem d;
     clock := clock d; mon := f (mon d) |}.

(** ** Byte views onto the scratch buffer *)

(** [view[i] = v]: MicroPython stores the low eight bits. *)
Definition store (i : nat) (v : Z) (m : nat → Z) : nat → Z :=
  λ j, if Nat.eqb j i then Z.land v 0xFF else m j.

(** [view[:] = data[:]] for a [bytes] object [data]. *)
Definition store_slice (bs : list Z) (m : nat → Z) : nat → Z :=
  λ j, nth j bs (m j).

(** The bytes a window of [n] bytes holds. *)
Definition view (n : nat) (m : nat → Z) : list Z :=
  map m (seq 0 n).

(** ** Methods as state transformers

    A method takes the instance and returns a value or the exception it
    raised, the instance as it left it, and the calls it made. *)

Definition M (A : Type) : Type := driver → (exn + A) * driver * list event.

#[global] Instance M_ret : MRet M := λ A a d, (inr a, d, []).

#[global] Instance M_bind : MBind M := λ A B k m d,
  match m d with
  | (inl e, d1, t1) => (inl e, d1, t1)
  | (inr a, d1, t1) =>
      match k a d1 with
      | (r, d2, t2) => (r, d2, t1 ++ t2)
      end
  end.

Definition raise {A} (e : exn) : M A := λ d, (inl e, d, []).
Definition call (ev : event) : M unit := λ d, (inr (), d, [ev]).
Definition self {A} (f : driver → A) : M A := λ d, (inr (f d), d, []).
Definition update (f : driver → driver) : M unit := λ d, (inr (), f d, []).

Definition when (b : bool) (m : M unit) : M unit :=
  if b then m else mret ().

Fixpoint for_each {A} (l : list A) (body : A → M unit) : M unit :=
  match l with
  | [] => mret ()
  | a :: l' => body a ;; for_each l' body
  end.

(** ** Transaction protocol *)

(** [len(data) * 8] bits, polling (blocking) transmit. *)
Definition spi_send (tx : list Z) : M unit :=
  h ← self (λ d, spi (res d));
  call (spi_device_polling_transmit h (Z.of_nat (length tx) * 8) tx).

(** Queued (DMA) transmit of the [tx_len] bytes at [tx_ptr]. *)
Definition spi_send_dma (tx_ptr tx_len : Z) : M unit :=
  h ← self (λ d, spi (res d));
  call (spi_device_queue_trans h (tx_len * 8) tx_ptr tx_len).

Definition send_cmd (c : Z) : M unit :=
  pin ← self (λ d, dc (cfg d));
  call (gpio_set_level pin 0);;
  update (set_trans_mem (store 0 c));;
  tx ← self (λ d, view 1 (trans_mem d));
  spi_send tx.

(** [self.trans_buffer.__dereference__(len(data))] needs a scratch
    buffer: [deinit] leaves [trans_buffer] at [None], which has no
    [__dereference__]. *)
Definition send_data (bs : list Z) : M unit :=
  pin ← self (λ d, dc (cfg d));
  call (gpio_set_level pin 1);;
  if bool_decide (Z.of_nat (length bs) > TRANS_BUFFER_LEN)
  then raise SizeViolation
  else
    tb ← self (λ d, trans_buffer (res d));
    match tb with
    | None => raise (AttributeError "__dereference__")
    | Some _ =>
        update (set_trans_mem (store_slice bs));;
        tx ← self (λ d, view (length bs) (trans_mem d));
        spi_send tx
    end.

Definition send_trans_word : M unit :=
  pin ← self (λ d, dc (cfg d));
  call (gpio_set_level pin 1);;
  tx ← self (λ d, view 4 (trans_mem d));
  spi_send tx.

Definition send_data_dma (tx_ptr tx_len : Z) : M unit :=
  pin ← self (λ d, dc (cfg d));
  call (gpio_set_level pin 1);;
  spi_send_dma tx_ptr tx_len.

(** ** Initialization *)

(** The table assigned to [self.init_cmds]; [self.rotation] is its only
    variable part. *)
Definition init_table (rotv : Z) : list init_cmd :=
  [ InitCmd 0xEF (Some [0]) None;
    InitCmd 0xEB (Some [0x14]) None;
    InitCmd 0xFE (Some [0]) None;
    InitCmd 0xEF (Some [0]) None;
    InitCmd 0xEB (Some [0x14]) None;
    InitCmd 0x84 (Some [0x40]) None;
    InitCmd 0x85 (Some [0xFF]) None;
    InitCmd 0x86 (Some [0xFF]) None;
    InitCmd 0x87 (Some [0xFF]) None;
    InitCmd 0x88 (Some [0x0A]) None;
    InitCmd 0x89 (Some [0x21]) None;
    InitCmd 0x8A (Some [0x00]) None;
    InitCmd 0x8B (Some [0x80]) None;
    InitCmd 0x8C (Some [0x01]) None;
    InitCmd 0x8D (Some [0x01]) None;
    InitCmd 0x8E (Some [0xFF]) None;
    InitCmd 0x8F (Some [0xFF]) None;
    InitCmd 0xB6 (Some [0x00; 0x00]) None;
    InitCmd 0x36 (Some [0x48]) None;
    InitCmd rotv (Some [0]) None;
    InitCmd 0x3A (Some [0x05]) None;
    InitCmd 0x90 (Some [0x08; 0x08; 0x08; 0x08]) None;
    InitCmd 0xBD (Some [0x06]) None;
    InitCmd 0xBC (Some [0x00]) None;
    InitCmd 0xFF (Some [0x60; 0x01; 0x04]) None;
    InitCmd 0xC3 (Some [0x13]) None;
    InitCmd 0xC4 (Some [0x13]) None;
    InitCmd 0xC9 (Some [0x22]) None;
    InitCmd 0xBE (Some [0x11]) None;
    InitCmd 0xE1 (Some [0x10; 0x0E]) None;
    InitCmd 0xDF (Some [0x21; 0x0c; 0x02]) None;
    InitCmd 0xF0 (Some [0x45; 0x09; 0x08; 0x08; 0x26; 0x2A]) None;
    InitCmd 0xF1 (Some [0x43; 0x70; 0x72; 0x36; 0x37; 0x6F]) None;
    InitCmd 0xF2 (Some [0x45; 0x09; 0x08; 0x08; 0x26; 0x2A]) None;
    InitCmd 0xF3 (Some [0x43; 0x70; 0x72; 0x36; 0x37; 0x6F]) None;
    InitCmd 0xED (Some [0x1B; 0x0B]) None;
    InitCmd 0xAE (Some [0x77]) None;
    InitCmd 0xCD (Some [0x63]) None;
    InitCmd 0x70 (Some [0x07; 0x07; 0x04; 0x0E; 0x0F; 0x09; 0x07; 0x08; 0x03]) None;
    InitCmd 0xE8 (Some [0x34]) None;
    InitCmd 0x62 (Some [0x18; 0x0D; 0x71; 0xED; 0x70; 0x70;
                        0x18; 0x0F; 0x71; 0xEF; 0x70; 0x70]) None;
    InitCmd 0x63 (Some [0x18; 0x11; 0x71; 0xF1; 0x70; 0x70;
                        0x18; 0x13; 0x71; 0xF3; 0x70; 0x70]) None;
    InitCmd 0x64 (Some [0x28; 0x29; 0xF1; 0x01; 0xF1; 0x00; 0x07]) None;
    InitCmd 0x66 (Some [0x3C; 0x00; 0xCD; 0x67; 0x45; 0x45; 0x10; 0x00; 0x00; 0x00]) None;
    InitCmd 0x67 (Some [0x00; 0x3C; 0x00; 0x00; 0x00; 0x01; 0x54; 0x10; 0x32; 0x98]) None;
    InitCmd 0x74 (Some [0x10; 0x85; 0x80; 0x00; 0x00; 0x4E; 0x00]) None;
    InitCmd 0x98 (Some [0x3e; 0x07]) None;
    InitCmd 0x35 (Some [0]) None;
    InitCmd 0x21 (Some [0]) None;
    InitCmd 0x11 (Some [0]) (Some 20);
    InitCmd 0x29 (Some [0]) (Some 120) ].

(** The body of the [for cmd in self.init_cmds] loop. *)
Definition init_step (sleep_func : Z → M unit) (c : init_cmd) : M unit :=
  send_cmd (cmd c);;
  match data c with Some bs => send_data bs | None => mret () end;;
  match delay c with Some ms => sleep_func ms | None => mret () end.

Definition _init (sleep_func : Z → M unit) : M unit :=
  c ← self cfg;
  call (gpio_pad_select_gpio (dc c));;
  when (bool_decide (rst c ≠ -1)) (call (gpio_pad_select_gpio (rst c)));;
  when (bool_decide (backlight c ≠ -1)) (call (gpio_pad_select_gpio (backlight c)));;
  when (bool_decide (power c ≠ -1)) (call (gpio_pad_select_gpio (power c)));;
  call (gpio_set_direction (dc c) OUTPUT);;
  when (bool_decide (rst c ≠ -1)) (call (gpio_set_direction (rst c) OUTPUT));;
  when (bool_decide (backlight c ≠ -1)) (call (gpio_set_direction (backlight c) OUTPUT));;
  when (bool_decide (power c ≠ -1)) (call (gpio_set_direction (power c) OUTPUT));;
  when (bool_decide (power c ≠ -1))
    (call (gpio_set_level (power c) (power_on c));;
     sleep_func 100);;
  when (bool_decide (rst c ≠ -1))
    (call (gpio_set_level (rst c) 0);;
     sleep_func 100;;
     call (gpio_set_level (rst c) 1);;
     sleep_func 100);;
  cmds ← self init_cmds;
  match cmds with
  | None => raise (AttributeError "init_cmds")
  | Some l => for_each l (init_step sleep_func)
  end;;
  when (bool_decide (backlight c ≠ -1))
    (call (gpio_set_level (backlight c) (backlight_on c)));;
  call disp_drv_register.

(** [init] drives the generator and sleeps with [utime.sleep_ms];
    [init_async] awaits [uasyncio.sleep_ms]. *)
Definition init : M unit := _init (λ ms, call (utime_sleep_ms ms)).
Definition init_async : M unit := _init (λ ms, call (uasyncio_sleep_ms ms)).

Definition power_down : M unit :=
  c ← self cfg;
  when (bool_decide (power c ≠ -1))
    (call (gpio_set_level (power c) (1 - power_on c)));;
  when (bool_decide (backlight c ≠ -1))
    (call (gpio_set_level (backlight c) (1 - backlight_on c))).

(** ** Construction *)

(** What the platform answers during construction: [lv.color_t.SIZE],
    [esp.esp_clk_cpu_freq()], the pointers [heap_caps_malloc] returns for
    the two pixel buffers and the scratch buffer ([None] is the null
    pointer) with the bytes the scratch memory holds, the status codes of
    [spi_bus_initialize] and [spi_bus_add_device] and the device handle. *)
Record platform := Platform {
  lv_color_size : Z;
  esp_clk_cpu_freq : Z;
  malloc_buf1 : option Z;
  malloc_buf2 : option Z;
  malloc_trans : option Z;
  malloc_trans_mem : nat → Z;
  spi_bus_initialize_ret : Z;
  spi_bus_add_device_ret : Z;
  spi_handle : Z
}.

(** [a // b]. *)
Definition floordiv (a b : Z) : M Z :=
  if bool_decide (b = 0) then raise ZeroDivisionError else mret (a / b).

(** The instance [__init__] receives: the class attributes are visible,
    as the class body leaves them (the two timestamps, which are
    class-level objects, read 0 until a [flush] has run), and no instance
    attribute is assigned yet. *)
Definition blank (c : config) (p : platform) : driver :=
  {| cfg := c;
     color_size := lv_color_size p;
     cycles_in_ms := esp_clk_cpu_freq p / 1000;
     buf_size := 0;
     self_rotation := 0;
     init_cmds := None;
     res := Resources None (Some (spihost c)) None None None;
     spi_assigned := false;
     trans_mem := λ _, 0;
     clock := Timing 0 0 0 0;
     mon := MonitorAcc 0 0 0 |}.

(** [disp_spi_init].  The finalizer object, the two configuration
    structs and the registration of [flush_isr] by
    [spi_transaction_set_cb] make no call that can fail and are not
    recorded; a null scratch pointer fails at its [__dereference__]. *)
Definition disp_spi_init (p : platform) : M unit :=
  c ← self cfg;
  sz ← self buf_size;
  when (negb (asynchronous c)) (call lvesp32_init);;
  call (gpio_pad_select_gpio (cs c));;
  when (bool_decide (miso c >= 0) && bool_decide (mosi c >= 0)
        && bool_decide (clk c >= 0))
    (call (gpio_pad_select_gpio (miso c));;
     call (gpio_pad_select_gpio (mosi c));;
     call (gpio_pad_select_gpio (clk c));;
     call (gpio_set_direction (miso c) INPUT);;
     call (gpio_set_pull_mode (miso c));;
     call (gpio_set_direction (mosi c) OUTPUT);;
     call (gpio_set_direction (clk c) OUTPUT);;
     call (spi_bus_initialize (spihost c) sz);;
     when (bool_decide (spi_bus_initialize_ret p ≠ 0))
       (raise TransportFailure_bus));;
  call (heap_caps_malloc TRANS_BUFFER_LEN);;
  update (set_res (λ r, Resources (spi r) (self_spihost r) (buf1 r) (buf2 r)
                                  (malloc_trans p)));;
  match malloc_trans p with
  | None => raise (AttributeError "__dereference__")
  | Some _ => update (set_trans_mem (λ _, malloc_trans_mem p))
  end;;
  call (spi_bus_add_device (spihost c) (mhz c * 1000 * 1000) (cs c)
                           (half_duplex c));;
  when (bool_decide (spi_bus_add_device_ret p ≠ 0))
    (raise TransportFailure_device);;
  update (assign_spi (Some (spi_handle p))).

(** [__init__].  The arguments are already in [cfg]; the assignments to
    [disp_drv] fields ([user_data], [flush_cb], [monitor_cb], [hor_res],
    [ver_res]) touch no state the methods below read and are left out.
    Line 110 reads [self.init_cmds] before line 144 assigns it. *)
Definition __init__ (p : platform) : M unit :=
  c ← self cfg;
  sz ← floordiv (width c * height c * lv_color_size p) (factor c);
  update (set_buf_size sz);;
  when (invert c)
    (cmds ← self init_cmds;
     match cmds with
     | None => raise (AttributeError "init_cmds")
     | Some l => update (set_init_cmds (l ++ [InitCmd 0x21 None None]))
     end);;
  call (heap_caps_malloc sz);;
  update (set_res (λ r, Resources (spi r) (self_spihost r) (malloc_buf1 p)
                                  (buf2 r) (trans_buffer r)));;
  (if double_buffer c
   then
     call (heap_caps_malloc sz);;
     update (set_res (λ r, Resources (spi r) (self_spihost r) (buf1 r)
                                     (malloc_buf2 p) (trans_buffer r)))
   else
     update (set_res (λ r, Resources (spi r) (self_spihost r) (buf1 r)
                                     None (trans_buffer r))));;
  r ← self res;
  when (negb (bool_decide (is_Some (buf1 r))))
    (raise ResourceExhaustion);;
  px ← floordiv sz (lv_color_size p);
  call (disp_buf_init (buf1 r) (buf2 r) px);;
  call disp_drv_init;;
  disp_spi_init p;;
  match ROTATE !! rotation c with
  | None => raise ConfigurationError
  | Some opcode => update (set_self_rotation opcode)
  end;;
  rotv ← self self_rotation;
  update (set_init_cmds (init_table rotv));;
  when (initialize c) init.

(** Calling the class: the instance on success, the exception
    otherwise, and the calls made either way. *)
Definition construct (c : config) (p : platform) : (exn + driver) * list event :=
  match __init__ p (blank c p) with
  | (inl e, _, t) => (inl e, t)
  | (inr _, d, t) => (inr d, t)
  end.

(** ** Flush *)

(** [esp.get_ccount(ptr)] stores the cycle counter; [flush] reads it
    three times ([t0], [t1], [t2]) and the completion interrupt once. *)
Definition get_ccount_start (t : Z) : M unit :=
  update (set_clock (λ k, Timing t (end_time k) (flush_acc_setup_cycles k)
                                 (flush_acc_dma_cycles k))).
Definition get_ccount_end (t : Z) : M unit :=
  update (set_clock (λ k, Timing (start_time k) t (flush_acc_setup_cycles k)
                                 (flush_acc_dma_cycles k))).

(** The interrupt handler installed by [spi_transaction_set_cb]. *)
Definition flush_isr (t : Z) : M unit :=
  call flush_ready;;
  get_ccount_end t.

Definition flush (a : area) (color_p : Z) (t0 t1 t2 : Z) : M unit :=
  update (set_clock (λ k,
    if bool_decide (end_time k ≠ 0) && bool_decide (end_time k > start_time k)
    then Timing (start_time k) (end_time k) (flush_acc_setup_cycles k)
                (flush_acc_dma_cycles k + (end_time k - start_time k))
    else k));;
  get_ccount_start t0;;
  send_cmd 0x2A;;
  update (set_trans_mem (store 0 (Z.land (Z.shiftr (x1 a) 8) 0xFF)));;
  update (set_trans_mem (store 1 (Z.land (x1 a) 0xFF)));;
  update (set_trans_mem (store 2 (Z.land (Z.shiftr (x2 a) 8) 0xFF)));;
  update (set_trans_mem (store 3 (Z.land (x2 a) 0xFF)));;
  send_trans_word;;
  send_cmd 0x2B;;
  update (set_trans_mem (store 0 (Z.land (Z.shiftr (y1 a) 8) 0xFF)));;
  update (set_trans_mem (store 1 (Z.land (y1 a) 0xFF)));;
  update (set_trans_mem (store 2 (Z.land (Z.shiftr (y2 a) 8) 0xFF)));;
  update (set_trans_mem (store 3 (Z.land (y2 a) 0xFF)));;
  send_trans_word;;
  send_cmd 0x2C;;
  let size := (x2 a - x1 a + 1) * (y2 a - y1 a + 1) in
  sz ← self color_size;
  get_ccount_end t1;;
  update (set_clock (λ k,
    if bool_decide (end_time k > start_time k)
    then Timing (start_time k) (end_time k)
                (flush_acc_setup_cycles k + (end_time k - start_time k))
                (flush_acc_dma_cycles k)
    else k));;
  get_ccount_start t2;;
  send_data_dma color_p (size * sz).

(** ** Performance monitor *)

Definition monitor (time px : Z) : M unit :=
  update (set_mon (λ m, MonitorAcc (monitor_acc_time m + time)
                                   (monitor_acc_px m + px)
                                   (monitor_count m + 1))).

Definition stat : M (option (Z * Z * Z * Z)) :=
  m ← self mon;
  if bool_decide (monitor_count m = 0) then mret None
  else
    k ← self clock;
    ms ← self cycles_in_ms;
    time ← floordiv (monitor_acc_time m) (monitor_count m);
    setup ← floordiv (flush_acc_setup_cycles k) (monitor_count m * ms);
    dma ← floordiv (flush_acc_dma_cycles k) (monitor_count m * ms);
    px ← floordiv (monitor_acc_px m) (monitor_count m);
    update (set_mon (λ _, MonitorAcc 0 0 0));;
    update (set_clock (λ k, Timing (start_time k) (end_time k) 0 0));;
    mret (Some (time, setup, dma, px)).

(** ** Teardown *)

(** [while ret == 0: ret = spi_device_get_trans_result(...)]: the device
    hands back [pending] results (status 0) and then times out. *)
Fixpoint pop_trans_results (handle : Z) (pending : nat) : list event :=
  spi_device_get_trans_result handle ::
  match pending with
  | O => []
  | S n => pop_trans_results handle n
  end.

(** [if self.spi:] (line 321) reads an attribute that an object whose
    constructor raised before line 275 does not have. *)
Definition deinit (pending : nat) : M unit :=
  c ← self cfg;
  call disp_drv_remove;;
  when (negb (asynchronous c)) (call lvesp32_deinit);;
  bound ← self spi_assigned;
  when (negb bound) (raise (AttributeError "spi"));;
  r ← self res;
  match spi r with
  | Some h =>
      (λ d, (inr (), d, pop_trans_results h pending));;
      call (spi_bus_remove_device h);;
      update (set_res (λ r, Resources None (self_spihost r) (buf1 r) (buf2 r)
                                      (trans_buffer r)));;
      call (spi_bus_free (self_spihost r));;
      update (set_res (λ r, Resources (spi r) None (buf1 r) (buf2 r)
                                      (trans_buffer r)))
  | None => mret ()
  end;;
  r ← self res;
  match buf1 r with
  | Some b =>
      call (heap_caps_free b);;
      update (set_res (λ r, Resources (spi r) (self_spihost r) None (buf2 r)
                                      (trans_buffer r)))
  | None => mret ()
  end;;
  r ← self res;
  match buf2 r with
  | Some b =>
      call (heap_caps_free b);;
      update (set_res (λ r, Resources (spi r) (self_spihost r) (buf1 r) None
                                      (trans_buffer r)))
  | None => mret ()
  end;;
  r ← self res;
  match trans_buffer r with
  | Some b =>
      call (heap_caps_free b);;
      update (set_res (λ r, Resources (spi r) (self_spihost r) (buf1 r)
                                      (buf2 r) None))
  | None => mret ()
  end.

(** ** Vocabulary of the properties *)

(** State, result and calls of a run. *)
Definition state_of {A} (o : (exn + A) * driver * list event) : driver := o.1.2.
Definition result_of {A} (o : (exn + A) * driver * list event) : exn + A := o.1.1.
Definition calls_of {A} (o : (exn + A) * driver * list event) : list event := o.2.

(** [lv_coord_t] is a 16-bit signed integer, and [lv_area_t] holds four
    of them. *)
Definition lv_coord_t (v : Z) : Prop := -32768 <= v <= 32767.
Definition lv_area_t (a : area) : Prop :=
  lv_coord_t (x1 a) ∧ lv_coord_t (y1 a) ∧ lv_coord_t (x2 a) ∧ lv_coord_t (y2 a).

(** The [n]-byte big-endian encoding of [v], most significant byte
    first. *)
Fixpoint big_endian (n : nat) (v : Z) : list Z :=
  match n with
  | O => []
  | S k => big_endian k (v / 256) ++ [v mod 256]
  end.

Definition is_spi_transaction (e : event) : bool :=
  match e with
  | spi_device_polling_transmit _ _ _ | spi_device_queue_trans _ _ _ _ => true
  | _ => false
  end.

Definition is_queue_trans (e : event) : bool :=
  match e with
  | spi_device_queue_trans _ _ _ _ => true
  | _ => false
  end.

(** The payloads of the blocking transmits of a trace, in order. *)
Fixpoint blocking_sends (t : list event) : list (list Z) :=
  match t with
  | [] => []
  | spi_device_polling_transmit _ _ tx :: t' => tx :: blocking_sends t'
  | _ :: t' => blocking_sends t'
  end.

Definition is_malloc (e : event) : bool :=
  match e with
  | heap_caps_malloc _ => true
  | _ => false
  end.

Definition is_release (e : event) : bool :=
  match e with
  | heap_caps_free _ | spi_bus_remove_device _ | spi_bus_free _ => true
  | _ => false
  end.

(** The calls one entry of the table causes: the opcode in command mode,
    the payload in data mode, the delay. *)
Definition step_events (sleep : Z → event) (pin : Z) (h : option Z)
    (c : init_cmd) : list event :=
  [gpio_set_level pin 0;
   spi_device_polling_transmit h 8 [Z.land (cmd c) 0xFF]] ++
  match data c with
  | Some bs =>
      [gpio_set_level pin 1;
       spi_device_polling_transmit h (Z.of_nat (length bs) * 8) bs]
  | None => []
  end ++
  match delay c with
  | Some ms => [sleep ms]
  | None => []
  end.

Definition fits (c : init_cmd) : Prop :=
  match data c with
  | Some bs => Z.of_nat (length bs) <= TRANS_BUFFER_LEN
  | None => True
  end.

(** The calls of [_init] before and after the command table. *)
Definition init_prologue (sleep : Z → event) (c : config) : list event :=
  [gpio_pad_select_gpio (dc c)] ++
  (if bool_decide (rst c ≠ -1) then [gpio_pad_select_gpio (rst c)] else []) ++
  (if bool_decide (backlight c ≠ -1) then [gpio_pad_select_gpio (backlight c)] else []) ++
  (if bool_decide (power c ≠ -1) then [gpio_pad_select_gpio (power c)] else []) ++
  [gpio_set_direction (dc c) OUTPUT] ++
  (if bool_decide (rst c ≠ -1) then [gpio_set_direction (rst c) OUTPUT] else []) ++
  (if bool_decide (backlight c ≠ -1) then [gpio_set_direction (backlight c) OUTPUT] else []) ++
  (if bool_decide (power c ≠ -1) then [gpio_set_direction (power c) OUTPUT] else []) ++
  (if bool_decide (power c ≠ -1)
   then [gpio_set_level (power c) (power_on c); sleep 100] else []) ++
  (if bool_decide (rst c ≠ -1)
   then [gpio_set_level (rst c) 0; sleep 100; gpio_set_level (rst c) 1; sleep 100]
   else []).

Definition init_epilogue (c : config) : list event :=
  (if bool_decide (backlight c ≠ -1)
   then [gpio_set_level (backlight c) (backlight_on c)] else []) ++
  [disp_drv_register].

Definition init_events (sleep : Z → event) (c : config) (h : option Z)
    (l : list init_cmd) : list event :=
  init_prologue sleep c ++ flat_map (step_events sleep (dc c) h) l ++
  init_epilogue c.

(** The scratch memory after one entry of the table, and the instance a
    successful construction returns. *)
Definition after_step (m : nat → Z) (c : init_cmd) : nat → Z :=
  match data c with
  | Some bs => store_slice bs (store 0 (cmd c) m)
  | None => store 0 (cmd c) m
  end.

Definition constructed (c : config) (p : platform) (opcode : Z) : driver :=
  {| cfg := c;
     color_size := lv_color_size p;
     cycles_in_ms := esp_clk_cpu_freq p / 1000;
     buf_size := width c * height c * lv_color_size p / factor c;
     self_rotation := opcode;
     init_cmds := Some (init_table opcode);
     res := Resources (Some (spi_handle p)) (Some (spihost c)) (malloc_buf1 p)
              (if double_buffer c then malloc_buf2 p else None)
              (malloc_trans p);
     spi_assigned := true;
     trans_mem := if initialize c
                  then foldl after_step (malloc_trans_mem p) (init_table opcode)
                  else malloc_trans_mem p;
     clock := Timing 0 0 0 0;
     mon := MonitorAcc 0 0 0 |}.

(** The condition guarding [spi_bus_initialize], the platform answers
    under which no call of the construction fails, and the outcome of
    the construction by order of precedence of its failures. *)
Definition bus_pins (c : config) : bool :=
  bool_decide (miso c >= 0) && bool_decide (mosi c >= 0)
  && bool_decide (clk c >= 0).

Definition platform_ok (c : config) (p : platform) : Prop :=
  lv_color_size p ≠ 0 ∧ is_Some (malloc_buf1 p) ∧ is_Some (malloc_trans p) ∧
  (bus_pins c = true → spi_bus_initialize_ret p = 0) ∧
  spi_bus_add_device_ret p = 0.

Definition construct_outcome (c : config) (p : platform) : exn + unit :=
  if bool_decide (factor c = 0) then inl ZeroDivisionError
  else if invert c then inl (AttributeError "init_cmds")
  else if negb (bool_decide (is_Some (malloc_buf1 p))) then inl ResourceExhaustion
  else if bool_decide (lv_color_size p = 0) then inl ZeroDivisionError
  else if bus_pins c && bool_decide (spi_bus_initialize_ret p ≠ 0)
       then inl TransportFailure_bus
  else match malloc_trans p with
       | None => inl (AttributeError "__dereference__")
       | Some _ =>
           if bool_decide (spi_bus_add_device_ret p ≠ 0)
           then inl TransportFailure_device
           else match ROTATE !! rotation c with
                | None => inl ConfigurationError
                | Some _ => inr ()
                end
       end.


(** The means as the specification words them: every accumulator
    divided by the sample count. *)
Definition means_by_count (d : driver) : Z * Z * Z * Z :=
  let n := monitor_count (mon d) in
  (monitor_acc_time (mon d) / n,
   flush_acc_setup_cycles (clock d) / n,
   flush_acc_dma_cycles (clock d) / n,
   monitor_acc_px (mon d) / n).

(** The means as [stat] computes them: the cycle accumulators are
    divided by the sample count times [cycles_in_ms]. *)
Definition means_in_ms (d : driver) : Z * Z * Z * Z :=
  let n := monitor_count (mon d) in
  (monitor_acc_time (mon d) / n,
   flush_acc_setup_cycles (clock d) / (n * cycles_in_ms d),
   flush_acc_dma_cycles (clock d) / (n * cycles_in_ms d),
   monitor_acc_px (mon d) / n).

(** A platform: 16-bit colours, 240 MHz clock, every call succeeds. *)
Definition esp32 : platform :=
  {| lv_color_size := 2; esp_clk_cpu_freq := 240000000;
     malloc_buf1 := Some 0x3FFB0000; malloc_buf2 := Some 0x3FFB8000;
     malloc_trans := Some 0x3FFC0000; malloc_trans_mem := λ _, 0;
     spi_bus_initialize_ret := 0; spi_bus_add_device_ret := 0;
     spi_handle := 0x3FFC1000 |}.

(** A platform whose DMA heap is exhausted. *)
Definition exhausted : platform :=
  {| lv_color_size := 2; esp_clk_cpu_freq := 240000000;
     malloc_buf1 := None; malloc_buf2 := None;
     malloc_trans := Some 0x3FFC0000; malloc_trans_mem := λ _, 0;
     spi_bus_initialize_ret := 0; spi_bus_add_device_ret := 0;
     spi_handle := 0x3FFC1000 |}.

(** [GC9A01(invert=True)], [GC9A01(double_buffer=False)] and
    [GC9A01(rotation=45)]. *)
Definition with_flags (inv dbl : bool) (r : Z) : config :=
  {| miso := 5; mosi := 18; clk := 19; cs := 13; dc := 12; rst := 4;
     power := 14; backlight := 15; backlight_on := 0; power_on := 0;
     spihost := 1; mhz := 60; factor := 4; hybrid := false;
     width := 240; height := 240; colormode := COLOR_MODE_RGB;
     rot := PORTRAIT; invert := inv; double_buffer := dbl;
     half_duplex := true; asynchronous := false; initialize := true;
     rotation := r |}.
Definition inverted_config : config := with_flags true true 0.
Definition skewed_config : config := with_flags false true 45.

(** [GC9A01(initialize=False)]: [init] is left to the caller. *)
Definition deferred_config : config :=
  {| miso := 5; mosi := 18; clk := 19; cs := 13; dc := 12; rst := 4;
     power := 14; backlight := 15; backlight_on := 0; power_on := 0;
     spihost := 1; mhz := 60; factor := 4; hybrid := false;
     width := 240; height := 240; colormode := COLOR_MODE_RGB;
     rot := PORTRAIT; invert := false; double_buffer := true;
     half_duplex := true; asynchronous := false; initialize := false;
     rotation := 0 |}.

(** The instance [GC9A01(initialize=False)] yields on that platform. *)
Definition booted : driver :=
  match construct deferred_config esp32 with
  | (inr d, _) => d
  | (inl _, _) => blank deferred_config esp32
  end.

(** That instance after [deinit], one transfer being in flight. *)
Definition torn_down : driver := state_of (deinit 1 booted).

(** A platform on which [spi_bus_add_device] fails, and the object the
    raising constructor leaves to the finalizer there: the buffers are
    allocated, [spi] is not assigned. *)
Definition no_device : platform :=
  {| lv_color_size := 2; esp_clk_cpu_freq := 240000000;
     malloc_buf1 := Some 0x3FFB0000; malloc_buf2 := Some 0x3FFB8000;
     malloc_trans := Some 0x3FFC0000; malloc_trans_mem := λ _, 0;
     spi_bus_initialize_ret := 0; spi_bus_add_device_ret := 257;
     spi_handle := 0 |}.
Definition half_built : driver :=
  state_of (__init__ no_device (blank default_config no_device)).

(** One full-screen flush taking 480000 cycles of setup, its completion
    interrupt, and the monitor callback of that frame. *)
Definition one_frame : driver :=
  state_of (monitor 5 57600
    (state_of (flush_isr 961100
      (state_of (flush (Area 0 0 239 239) 0x3FFB0000 1000 481000 481100
                       booted))))).

(** The frames of a run of [monitor] callbacks. *)
Definition record_frames (frames : list (Z * Z)) : M unit :=
  for_each frames (λ f, monitor f.1 f.2).

(** ** Vocabulary of the trace properties *)

(** Every call a method makes, from every state, satisfies [P]. *)
Definition emits {A} (P : event → Prop) (m : M A) : Prop :=
  ∀ d, Forall P (calls_of (m d)).

(** A transaction descriptor as the driver fills it: the bit length is
    eight times the byte count, and a blocking transmit sends a prefix
    of the [TRANS_BUFFER_LEN]-byte scratch buffer. *)
Definition well_formed (e : event) : Prop :=
  match e with
  | spi_device_polling_transmit _ len tx =>
      len = Z.of_nat (length tx) * 8 ∧ Z.of_nat (length tx) <= TRANS_BUFFER_LEN
  | spi_device_queue_trans _ len _ n => len = n * 8
  | _ => True
  end.

(** A call that is a well-formed transaction or no transaction, and
    hands nothing back to the allocator or the SPI master. *)
Definition acquiring (e : event) : Prop := well_formed e ∧ is_release e = false.

(** [init_async] passes [uasyncio.sleep_ms] where [init] calls
    [utime.sleep_ms]. *)
Definition cooperative (e : event) : event :=
  match e with
  | utime_sleep_ms ms => uasyncio_sleep_ms ms
  | _ => e
  end.

(** Two runs that differ only in the way they sleep. *)
Definition same_run {A} (o o' : (exn + A) * driver * list event) : Prop :=
  result_of o' = result_of o ∧ state_of o' = state_of o ∧
  calls_of o' = map cooperative (calls_of o).

(** The transactions of a trace, each with the level the D/C line
    [pin] was last driven to ([None]: not driven yet). *)
Fixpoint dc_log (pin : Z) (level : option Z) (t : list event)
    : list (option Z * event) :=
  match t with
  | [] => []
  | e :: t' =>
      match e with
      | gpio_set_level p v =>
          dc_log pin (if bool_decide (p = pin) then Some v else level) t'
      | spi_device_polling_transmit _ _ _
      | spi_device_queue_trans _ _ _ _ => (level, e) :: dc_log pin level t'
      | _ => dc_log pin level t'
      end
  end.

(** What one entry of the command table puts on the wire. *)
Definition step_log (h : option Z) (c : init_cmd) : list (option Z * event) :=
  (Some 0, spi_device_polling_transmit h 8 [Z.land (cmd c) 0xFF]) ::
  match data c with
  | Some bs =>
      [(Some 1, spi_device_polling_transmit h (Z.of_nat (length bs) * 8) bs)]
  | None => []
  end.

(** [esp.spi_bus_initialize] calls. *)
Definition is_bus_initialize (e : event) : bool :=
  match e with
  | spi_bus_initialize _ _ => true
  | _ => false
  end.

(** The calls the graphics framework and the SPI master make on a
    running driver: a flush (with its three cycle-counter readings),
    the transfer-done interrupt, the monitor callback, and [stat]. *)
Inductive op :=
| Flush (a : area) (color_p t0 t1 t2 : Z)
| Isr (t : Z)
| Monitor (time px : Z)
| Stat.

Definition step (d : driver) (o : op) : driver :=
  match o with
  | Flush a color_p t0 t1 t2 => state_of (flush a color_p t0 t1 t2 d)
  | Isr t => state_of (flush_isr t d)
  | Monitor time px => state_of (monitor time px d)
  | Stat => state_of (stat d)
  end.

(** The cycle accumulators and the sample count are not negative. *)
Definition accumulators_ok (d : driver) : Prop :=
  0 <= flush_acc_setup_cycles (clock d) ∧
  0 <= flush_acc_dma_cycles (clock d) ∧
  0 <= monitor_count (mon d).

(** Python's [sum]. *)
Definition sum_Z (l : list Z) : Z := foldr Z.add 0 l.

(** The level a trace leaves the output [pin] at. *)
Fixpoint level_of (pin : Z) (level : option Z) (t : list event) : option Z :=
  match t with
  | [] => level
  | gpio_set_level p v :: t' =>
      level_of pin (if bool_decide (p = pin) then Some v else level) t'
  | _ :: t' => level_of pin level t'
  end.

(** An instance whose command table has a 17-byte payload in its
    second entry. *)
Definition oversized : driver :=
  set_init_cmds [InitCmd 0x2A (Some [0]) None;
                 InitCmd 0x2C (Some (replicate 17 0xAA)) None;
                 InitCmd 0x29 None (Some 120)] booted.

(** An instance on a bus another driver has set up ([miso=-1]),
    initialized later. *)
Definition write_only_config : config :=
  {| miso := -1; mosi := 18; clk := 19; cs := 13; dc := 12; rst := 4;
     power := 14; backlight := 15; backlight_on := 0; power_on := 0;
     spihost := 1; mhz := 60; factor := 4; hybrid := false;
     width := 240; height := 240; colormode := COLOR_MODE_RGB;
     rot := PORTRAIT; invert := false; double_buffer := true;
     half_duplex := true; asynchronous := false; initialize := false;
     rotation := 0 |}.

(** ** Running methods *)

Section Running.
  Context {A B : Type}.
  Implicit Types (m : M A) (k : A → M B) (d : driver) (e : exn).

(** A step that returns hands its value, state and calls to the rest. *)
Lemma bind_seq m k d a d1 t1 r d2 t2 :
  m d = (inr a, d1, t1) → k a d1 = (r, d2, t2) →
  (m ≫= k) d = (r, d2, t1 ++ t2).
Proof. intros H1 H2. unfold mbind, M_bind. rewrite H1, H2. reflexivity. Qed.

Lemma bind_run m k d a d1 t1 :
  m d = (inr a, d1, t1) →
  (m ≫= k) d = (result_of (k a d1), state_of (k a d1), t1 ++ calls_of (k a d1)).
Proof.
  intros H. destruct (k a d1) as [[r d2] t2] eqn:Hk.
  apply (bind_seq _ _ _ _ _ _ _ _ _ H Hk).
Qed.

(** A step that raises ends the method. *)
Lemma bind_raise m k d e d1 t1 :
  m d = (inl e, d1, t1) → (m ≫= k) d = (inl e, d1, t1).
Proof. intros H. unfold mbind, M_bind. rewrite H. reflexivity. Qed.

Lemma self_bind (f : driver → A) k d : (self f ≫= k) d = k (f d) d.
Proof.
  unfold mbind, M_bind, self. destruct (k (f d) d) as [[r d2] t2]. reflexivity.
Qed.

Lemma bind_result_run m k d a d1 t1 :
  m d = (inr a, d1, t1) → result_of ((m ≫= k) d) = result_of (k a d1).
Proof. intros H. rewrite (bind_run _ _ _ _ _ _ H). reflexivity. Qed.

Lemma bind_result_raise m k d e :
  result_of (m d) = inl e → result_of ((m ≫= k) d) = inl e.
Proof.
  destruct (m d) as [[[e'|a] d1] t1] eqn:Hm; cbn.
  - intros [= ->]. rewrite (bind_raise _ _ _ _ _ _ Hm). reflexivity.
  - discriminate.
Qed.

(** To close a run whose state and calls are known up to conversion. *)
Lemma run_eq (o : (exn + A) * driver * list event) r d t d' t' :
  o = (r, d, t) → d = d' → t = t' → o = (r, d', t').
Proof. intros -> -> ->. reflexivity. Qed.

End Running.

(** Runs the steps of a method that compute, for its result alone. *)
Ltac run_result :=
  repeat (eapply eq_trans; [eapply bind_result_run; reflexivity|]).

(** Runs one step that computes. *)
Ltac run_step := eapply bind_seq; [reflexivity|].

(** ** Running the transaction protocol *)

Lemma set_trans_mem_id (d : driver) : set_trans_mem (λ _, trans_mem d) d = d.
Proof. destruct d; reflexivity. Qed.

Lemma view_store_slice (bs : list Z) (m : nat → Z) :
  view (length bs) (store_slice bs m) = bs.
Proof.
  unfold view, store_slice.
  assert (G : ∀ (pre : list Z),
    map (λ j, nth j (pre ++ bs) (m j)) (seq (length pre) (length bs)) = bs).
  { induction bs as [|b bs IH]; intros pre; [reflexivity|].
    cbn [length seq map]. f_equal.
    - rewrite app_nth2 by lia. rewrite Nat.sub_diag. reflexivity.
    - specialize (IH (pre ++ [b])). rewrite length_app in IH. cbn [length] in IH.
      rewrite Nat.add_1_r in IH. rewrite <- IH at 2.
      apply map_ext. intros j. rewrite <- app_assoc. reflexivity. }
  apply (G []).
Qed.

Lemma send_cmd_run (c : Z) (d : driver) :
  send_cmd c d =
  (inr (), set_trans_mem (store 0 c) d,
   [gpio_set_level (dc (cfg d)) 0;
    spi_device_polling_transmit (spi (res d)) 8 [Z.land c 0xFF]]).
Proof. reflexivity. Qed.

Lemma send_data_run (bs : list Z) (d : driver) :
  Z.of_nat (length bs) <= TRANS_BUFFER_LEN →
  is_Some (trans_buffer (res d)) →
  send_data bs d =
  (inr (), set_trans_mem (store_slice bs) d,
   [gpio_set_level (dc (cfg d)) 1;
    spi_device_polling_transmit (spi (res d)) (Z.of_nat (length bs) * 8) bs]).
Proof.
  intros Hlen [tb Htb]. unfold send_data, mbind, M_bind, self, call.
  cbn beta iota.
  rewrite bool_decide_eq_false_2 by lia. cbn beta iota. rewrite Htb.
  unfold update, spi_send, mbind, M_bind, self, call. cbn.
  rewrite view_store_slice. reflexivity.
Qed.

(** Without a scratch buffer the payload is not copied and not sent. *)
Lemma send_data_no_buffer (bs : list Z) (d : driver) :
  Z.of_nat (length bs) <= TRANS_BUFFER_LEN →
  trans_buffer (res d) = None →
  send_data bs d =
  (inl (AttributeError "__dereference__"), d, [gpio_set_level (dc (cfg d)) 1]).
Proof.
  intros Hlen Htb. unfold send_data, mbind, M_bind, self, call.
  cbn beta iota.
  rewrite bool_decide_eq_false_2 by lia. cbn beta iota. rewrite Htb.
  reflexivity.
Qed.

Lemma send_data_raise (bs : list Z) (d : driver) :
  Z.of_nat (length bs) > TRANS_BUFFER_LEN →
  send_data bs d = (inl SizeViolation, d, [gpio_set_level (dc (cfg d)) 1]).
Proof.
  intros Hlen. unfold send_data, mbind, M_bind, self, call. cbn beta iota.
  rewrite bool_decide_eq_true_2 by lia. reflexivity.
Qed.

Lemma land_byte_idem (v : Z) : Z.land (Z.land v 0xFF) 0xFF = Z.land v 0xFF.
Proof. rewrite <- Z.land_assoc. reflexivity. Qed.

Lemma land_byte_mod (v : Z) : Z.land v 0xFF = v mod 256.
Proof. apply (Z.land_ones v 8). lia. Qed.

Lemma shiftr_byte_div (v : Z) : Z.shiftr v 8 = v / 256.
Proof. apply (Z.shiftr_div_pow2 v 8). lia. Qed.

Lemma high_byte_small (v : Z) :
  0 <= v → lv_coord_t v → Z.land (Z.shiftr v 8) 0xFF = Z.shiftr v 8.
Proof.
  intros H0 [_ H1]. rewrite land_byte_mod, shiftr_byte_div.
  apply Z.mod_small. split.
  - apply Z.div_pos; lia.
  - apply Z.div_lt_upper_bound; lia.
Qed.

Lemma big_endian_2 (v : Z) :
  big_endian 2 v = [Z.land (Z.shiftr v 8) 0xFF; Z.land v 0xFF].
Proof.
  cbn [big_endian app]. rewrite !land_byte_mod, shiftr_byte_div. reflexivity.
Qed.

(** The calls of [flush], for any instance, area and cycle readings. *)
Lemma flush_calls (d : driver) (a : area) (color_p t0 t1 t2 : Z) :
  result_of (flush a color_p t0 t1 t2 d) = inr () ∧
  calls_of (flush a color_p t0 t1 t2 d) =
    [gpio_set_level (dc (cfg d)) 0;
     spi_device_polling_transmit (spi (res d)) 8 [0x2A];
     gpio_set_level (dc (cfg d)) 1;
     spi_device_polling_transmit (spi (res d)) 32
       [Z.land (Z.shiftr (x1 a) 8) 0xFF; Z.land (x1 a) 0xFF;
        Z.land (Z.shiftr (x2 a) 8) 0xFF; Z.land (x2 a) 0xFF];
     gpio_set_level (dc (cfg d)) 0;
     spi_device_polling_transmit (spi (res d)) 8 [0x2B];
     gpio_set_level (dc (cfg d)) 1;
     spi_device_polling_transmit (spi (res d)) 32
       [Z.land (Z.shiftr (y1 a) 8) 0xFF; Z.land (y1 a) 0xFF;
        Z.land (Z.shiftr (y2 a) 8) 0xFF; Z.land (y2 a) 0xFF];
     gpio_set_level (dc (cfg d)) 0;
     spi_device_polling_transmit (spi (res d)) 8 [0x2C];
     gpio_set_level (dc (cfg d)) 1;
     spi_device_queue_trans (spi (res d))
       ((x2 a - x1 a + 1) * (y2 a - y1 a + 1) * color_size d * 8) color_p
       ((x2 a - x1 a + 1) * (y2 a - y1 a + 1) * color_size d)].
Proof.
  split; [reflexivity|].
  rewrite <- (land_byte_idem (Z.shiftr (x1 a) 8)),
          <- (land_byte_idem (Z.shiftr (x2 a) 8)),
          <- (land_byte_idem (Z.shiftr (y1 a) 8)),
          <- (land_byte_idem (Z.shiftr (y2 a) 8)).
  rewrite <- (land_byte_idem (x1 a)), <- (land_byte_idem (x2 a)),
          <- (land_byte_idem (y1 a)), <- (land_byte_idem (y2 a)).
  reflexivity.
Qed.

(** ** Flush: addressing window, payload length, ordering *)

(** C1.  For an area of [lv_coord_t] coordinates with
    [0 <= x1 <= x2 <= width-1] and [0 <= y1 <= y2 <= height-1], [flush]
    sends the column window as the four bytes
    [(x1>>8, x1&0xFF, x2>>8, x2&0xFF)], then the row window as the
    big-endian encoding of [y1] and [y2], and then queues a DMA send of
    [(x2-x1+1)*(y2-y1+1)*lv.color_t.SIZE] bytes. *)
Theorem flush_window_and_payload
    (d : driver) (a : area) (color_p t0 t1 t2 : Z) :
  lv_area_t a →
  0 <= x1 a ∧ x1 a <= x2 a ∧ x2 a <= width (cfg d) - 1 →
  0 <= y1 a ∧ y1 a <= y2 a ∧ y2 a <= height (cfg d) - 1 →
  result_of (flush a color_p t0 t1 t2 d) = inr () ∧
  calls_of (flush a color_p t0 t1 t2 d) =
    [gpio_set_level (dc (cfg d)) 0;
     spi_device_polling_transmit (spi (res d)) 8 [0x2A];
     gpio_set_level (dc (cfg d)) 1;
     spi_device_polling_transmit (spi (res d)) 32
       [Z.shiftr (x1 a) 8; Z.land (x1 a) 0xFF;
        Z.shiftr (x2 a) 8; Z.land (x2 a) 0xFF];
     gpio_set_level (dc (cfg d)) 0;
     spi_device_polling_transmit (spi (res d)) 8 [0x2B];
     gpio_set_level (dc (cfg d)) 1;
     spi_device_polling_transmit (spi (res d)) 32
       (big_endian 2 (y1 a) ++ big_endian 2 (y2 a));
     gpio_set_level (dc (cfg d)) 0;
     spi_device_polling_transmit (spi (res d)) 8 [0x2C];
     gpio_set_level (dc (cfg d)) 1;
     spi_device_queue_trans (spi (res d))
       ((x2 a - x1 a + 1) * (y2 a - y1 a + 1) * color_size d * 8) color_p
       ((x2 a - x1 a + 1) * (y2 a - y1 a + 1) * color_size d)].
Proof.
  intros (Tx1 & Ty1 & Tx2 & Ty2) (Hx0 & Hx1 & Hx2) (Hy0 & Hy1 & Hy2).
  destruct (flush_calls d a color_p t0 t1 t2) as [Hr Hc].
  split; [exact Hr|]. rewrite Hc, !big_endian_2.
  rewrite (high_byte_small (x1 a)), (high_byte_small (x2 a)) by (assumption || lia).
  reflexivity.
Qed.

Lemma flush_window_and_payload_witness :
  calls_of (flush (Area 16 32 239 199) 0x3FFB0000 1000 2000 3000 booted) =
    [gpio_set_level 12 0;
     spi_device_polling_transmit (Some 0x3FFC1000) 8 [0x2A];
     gpio_set_level 12 1;
     spi_device_polling_transmit (Some 0x3FFC1000) 32 [0; 16; 0; 239];
     gpio_set_level 12 0;
     spi_device_polling_transmit (Some 0x3FFC1000) 8 [0x2B];
     gpio_set_level 12 1;
     spi_device_polling_transmit (Some 0x3FFC1000) 32 [0; 32; 0; 199];
     gpio_set_level 12 0;
     spi_device_polling_transmit (Some 0x3FFC1000) 8 [0x2C];
     gpio_set_level 12 1;
     spi_device_queue_trans (Some 0x3FFC1000) 602112 0x3FFB0000 75264].
Proof.
  refine (proj2 (flush_window_and_payload booted (Area 16 32 239 199)
                   0x3FFB0000 1000 2000 3000 _ _ _)).
  - unfold lv_area_t, lv_coord_t; cbn; lia.
  - vm_compute; intuition discriminate.
  - vm_compute; intuition discriminate.
Defined.

(** C6.  In every [flush] the queued (DMA) transfer is the last call;
    before it, and in this order, the blocking transmits carry the
    column-address command and window, the row-address command and
    window, and the memory-write command. *)
Theorem flush_window_before_dma
    (d : driver) (a : area) (color_p t0 t1 t2 : Z) :
  ∃ (pre : list event) (dma : event),
    result_of (flush a color_p t0 t1 t2 d) = inr () ∧
    calls_of (flush a color_p t0 t1 t2 d) = pre ++ [dma] ∧
    is_queue_trans dma = true ∧
    Forall (λ e, is_queue_trans e = false) pre ∧
    blocking_sends pre =
      [ [0x2A];
        [Z.land (Z.shiftr (x1 a) 8) 0xFF; Z.land (x1 a) 0xFF;
         Z.land (Z.shiftr (x2 a) 8) 0xFF; Z.land (x2 a) 0xFF];
        [0x2B];
        [Z.land (Z.shiftr (y1 a) 8) 0xFF; Z.land (y1 a) 0xFF;
         Z.land (Z.shiftr (y2 a) 8) 0xFF; Z.land (y2 a) 0xFF];
        [0x2C] ].
Proof.
  destruct (flush_calls d a color_p t0 t1 t2) as [Hr Hc].
  eexists (removelast (calls_of (flush a color_p t0 t1 t2 d))), _.
  rewrite Hc. cbn [removelast].
  split; [exact Hr|]. split; [reflexivity|]. split; [reflexivity|].
  split; [|reflexivity].
  repeat (constructor; [reflexivity|]). constructor.
Qed.

(** ** Blocking transfer limit *)

(** C5.  [send_data] of more than 16 bytes raises the size error and
    makes no SPI transaction (only the data/command line is driven), on
    every instance.  Of at most 16 bytes, on an instance that holds its
    scratch buffer, it copies them to the scratch buffer and makes one
    blocking transmit of exactly those bytes.  An instance torn down by
    [deinit] holds no scratch buffer: there the dereference of line 383
    raises [AttributeError], and nothing is copied or sent. *)
Theorem send_data_size_limit (d : driver) (bs : list Z) :
  (Z.of_nat (length bs) > 16 →
     send_data bs d = (inl SizeViolation, d, [gpio_set_level (dc (cfg d)) 1]) ∧
     List.filter is_spi_transaction (calls_of (send_data bs d)) = []) ∧
  (Z.of_nat (length bs) <= 16 → is_Some (trans_buffer (res d)) →
     send_data bs d =
       (inr (), set_trans_mem (store_slice bs) d,
        [gpio_set_level (dc (cfg d)) 1;
         spi_device_polling_transmit (spi (res d))
           (Z.of_nat (length bs) * 8) bs]) ∧
     view (length bs) (trans_mem (state_of (send_data bs d))) = bs) ∧
  (Z.of_nat (length bs) <= 16 → trans_buffer (res d) = None →
     send_data bs d =
       (inl (AttributeError "__dereference__"), d,
        [gpio_set_level (dc (cfg d)) 1]) ∧
     List.filter is_spi_transaction (calls_of (send_data bs d)) = []).
Proof.
  split; [|split]; intros Hlen.
  - rewrite send_data_raise by exact Hlen. split; reflexivity.
  - intros Htb. rewrite send_data_run by assumption. split; [reflexivity|].
    apply view_store_slice.
  - intros Htb. rewrite send_data_no_buffer by assumption. split; reflexivity.
Qed.

Lemma send_data_size_limit_witness :
  result_of (send_data (replicate 17 0xAA) booted) = inl SizeViolation ∧
  calls_of (send_data [1; 2; 3] booted) =
    [gpio_set_level 12 1;
     spi_device_polling_transmit (Some 0x3FFC1000) 24 [1; 2; 3]] ∧
  send_data [1; 2; 3] torn_down =
    (inl (AttributeError "__dereference__"), torn_down, [gpio_set_level 12 1]).
Proof.
  split; [|split].
  - refine (f_equal result_of
      (proj1 (proj1 (send_data_size_limit booted (replicate 17 0xAA)) _))).
    vm_compute; reflexivity.
  - refine (f_equal calls_of
      (proj1 (proj1 (proj2 (send_data_size_limit booted [1; 2; 3])) _ _))).
    + vm_compute; discriminate.
    + vm_compute; eauto.
  - refine (proj1 (proj2 (proj2 (send_data_size_limit torn_down [1; 2; 3])) _ _)).
    + vm_compute; discriminate.
    + reflexivity.
Defined.

(** ** DMA cycle accounting *)

(** What [stat] returns is a function of the sample count, the
    accumulators and [cycles_in_ms]. *)
Lemma stat_result (d : driver) :
  result_of (stat d) =
  if bool_decide (monitor_count (mon d) = 0) then inr None
  else if bool_decide (monitor_count (mon d) * cycles_in_ms d = 0)
       then inl ZeroDivisionError
       else inr (Some (means_in_ms d)).
Proof.
  unfold stat, floordiv, mbind, M_bind, self. cbn beta iota.
  destruct (bool_decide (monitor_count (mon d) = 0)); [reflexivity|].
  cbn beta iota.
  destruct (bool_decide (monitor_count (mon d) * cycles_in_ms d = 0));
    reflexivity.
Qed.

(** C9.  The completion interrupt only calls [flush_ready] and stores
    the end timestamp: the DMA accumulator is as [flush] left it, and
    [flush] had only added the interval pending at its entry (when the
    end timestamp was nonzero and above the start timestamp).  So the
    accumulator, and what [stat] returns, do not depend on the
    completion of the last flush; its interval [t - t2] is added by the
    next [flush], under the same condition. *)
Theorem dma_cycles_added_by_next_flush
    (d : driver) (a a' : area) (p p' t0 t1 t2 t t0' t1' t2' : Z) :
  let d1 := state_of (flush a p t0 t1 t2 d) in
  let d2 := state_of (flush_isr t d1) in
  let d3 := state_of (flush a' p' t0' t1' t2' d2) in
  flush_isr t d1 =
    (inr (),
     set_clock (λ k, Timing (start_time k) t (flush_acc_setup_cycles k)
                            (flush_acc_dma_cycles k)) d1,
     [flush_ready]) ∧
  start_time (clock d2) = t2 ∧ end_time (clock d2) = t ∧
  flush_acc_dma_cycles (clock d2) = flush_acc_dma_cycles (clock d1) ∧
  flush_acc_dma_cycles (clock d1) =
    flush_acc_dma_cycles (clock d) +
    (if bool_decide (end_time (clock d) ≠ 0)
        && bool_decide (end_time (clock d) > start_time (clock d))
     then end_time (clock d) - start_time (clock d) else 0) ∧
  result_of (stat d2) = result_of (stat d1) ∧
  flush_acc_dma_cycles (clock d3) =
    flush_acc_dma_cycles (clock d2) +
    (if bool_decide (t ≠ 0) && bool_decide (t > t2) then t - t2 else 0).
Proof.
  intros d1 d2 d3.
  assert (Hflush : ∀ d a p t0 t1 t2,
    flush_acc_dma_cycles (clock (state_of (flush a p t0 t1 t2 d))) =
    flush_acc_dma_cycles (clock d) +
    (if bool_decide (end_time (clock d) ≠ 0)
        && bool_decide (end_time (clock d) > start_time (clock d))
     then end_time (clock d) - start_time (clock d) else 0)).
  { clear. intros d a p t0 t1 t2.
    change (flush_acc_dma_cycles (clock (state_of (flush a p t0 t1 t2 d))))
      with (flush_acc_dma_cycles
        (let k := (if bool_decide (end_time (clock d) ≠ 0)
                      && bool_decide (end_time (clock d) > start_time (clock d))
                   then Timing (start_time (clock d)) (end_time (clock d))
                          (flush_acc_setup_cycles (clock d))
                          (flush_acc_dma_cycles (clock d)
                           + (end_time (clock d) - start_time (clock d)))
                   else clock d) in
         if bool_decide (t1 > t0)
         then Timing t0 t1 (flush_acc_setup_cycles k + (t1 - t0))
                     (flush_acc_dma_cycles k)
         else Timing t0 t1 (flush_acc_setup_cycles k) (flush_acc_dma_cycles k))).
    cbv zeta.
    destruct (bool_decide (t1 > t0));
      destruct (bool_decide (end_time (clock d) ≠ 0)
                && bool_decide (end_time (clock d) > start_time (clock d)));
      cbn [flush_acc_dma_cycles]; lia. }
  split; [reflexivity|]. split; [reflexivity|]. split; [reflexivity|].
  split; [reflexivity|]. split; [apply Hflush|].
  split; [rewrite !stat_result; reflexivity|].
  unfold d3. rewrite Hflush. reflexivity.
Qed.

(** ** Performance monitor *)

Lemma record_frames_run (frames : list (Z * Z)) (d : driver) :
  record_frames frames d =
  (inr (),
   set_mon (λ m, foldl (λ m f, MonitorAcc (monitor_acc_time m + f.1)
                                          (monitor_acc_px m + f.2)
                                          (monitor_count m + 1)) m frames) d,
   []).
Proof.
  revert d. induction frames as [|f frames IH]; intros d.
  - destruct d; reflexivity.
  - unfold record_frames in *. cbn [for_each].
    erewrite bind_run by reflexivity. rewrite IH. reflexivity.
Qed.

Lemma frames_count (frames : list (Z * Z)) (m : monitor_acc) :
  monitor_count (foldl (λ m f, MonitorAcc (monitor_acc_time m + f.1)
                                          (monitor_acc_px m + f.2)
                                          (monitor_count m + 1)) m frames)
  = monitor_count m + Z.of_nat (length frames).
Proof.
  revert m. induction frames as [|f frames IH]; intros m; cbn [foldl length].
  - lia.
  - rewrite IH. cbn [monitor_count]. lia.
Qed.

Lemma stat_no_data (d : driver) :
  monitor_count (mon d) = 0 → stat d = (inr None, d, []).
Proof.
  intros H. unfold stat, mbind, M_bind, self. cbn beta iota.
  rewrite bool_decide_eq_true_2 by exact H. reflexivity.
Qed.

Lemma stat_run (d : driver) :
  monitor_count (mon d) ≠ 0 → cycles_in_ms d ≠ 0 →
  stat d =
  (inr (Some (means_in_ms d)),
   set_clock (λ k, Timing (start_time k) (end_time k) 0 0)
     (set_mon (λ _, MonitorAcc 0 0 0) d),
   []).
Proof.
  intros Hn Hms.
  assert (Hmul : monitor_count (mon d) * cycles_in_ms d ≠ 0) by nia.
  unfold stat, floordiv, mbind, M_bind, self. cbn beta iota.
  rewrite (bool_decide_eq_false_2 _ Hn). cbn beta iota.
  rewrite (bool_decide_eq_false_2 _ Hmul). reflexivity.
Qed.

(** C2, as the code has it.  With no sample [stat] returns [None].
    After [N >= 1] [monitor] calls (on a platform whose [cycles_in_ms]
    is not zero) it returns the mean time and the mean pixel count as
    accumulator [// N], and the setup and DMA means as accumulator
    [// (N * cycles_in_ms)]; it zeroes the five accumulators, so the
    next call returns [None] again. *)
Theorem stat_means_and_reset (d : driver) (frames : list (Z * Z)) :
  monitor_count (mon d) = 0 → frames ≠ [] → cycles_in_ms d ≠ 0 →
  let d1 := state_of (record_frames frames d) in
  let d2 := state_of (stat d1) in
  stat d = (inr None, d, []) ∧
  monitor_count (mon d1) = Z.of_nat (length frames) ∧
  stat d1 = (inr (Some (means_in_ms d1)), d2, []) ∧
  mon d2 = MonitorAcc 0 0 0 ∧
  flush_acc_setup_cycles (clock d2) = 0 ∧
  flush_acc_dma_cycles (clock d2) = 0 ∧
  stat d2 = (inr None, d2, []).
Proof.
  intros H0 Hne Hms d1 d2.
  assert (Hcount : monitor_count (mon d1) = Z.of_nat (length frames)).
  { unfold d1. rewrite record_frames_run. unfold state_of. cbn [fst snd mon set_mon].
    rewrite frames_count, H0. lia. }
  assert (Hpos : monitor_count (mon d1) ≠ 0).
  { rewrite Hcount. destruct frames; [congruence | cbn [length]; lia]. }
  assert (Hms1 : cycles_in_ms d1 ≠ 0).
  { unfold d1. rewrite record_frames_run. exact Hms. }
  pose proof (stat_run d1 Hpos Hms1) as Hrun.
  assert (Hd2 : d2 = set_clock (λ k, Timing (start_time k) (end_time k) 0 0)
                       (set_mon (λ _, MonitorAcc 0 0 0) d1)).
  { unfold d2. rewrite Hrun. reflexivity. }
  split; [apply stat_no_data; exact H0|].
  split; [exact Hcount|].
  split; [rewrite Hd2; exact Hrun|].
  rewrite Hd2.
  split; [reflexivity|]. split; [reflexivity|]. split; [reflexivity|].
  apply stat_no_data. reflexivity.
Qed.

Lemma stat_means_and_reset_witness :
  stat booted = (inr None, booted, []) ∧
  result_of (stat (state_of (record_frames [(5, 57600); (8, 1200)] booted))) =
    inr (Some (6, 0, 0, 29400)).
Proof.
  pose proof (stat_means_and_reset booted [(5, 57600); (8, 1200)]) as H.
  cbv zeta in H.
  destruct H as (Hnone & _ & Hsome & _).
  - reflexivity.
  - discriminate.
  - vm_compute; discriminate.
  - split; [exact Hnone|]. rewrite Hsome. reflexivity.
Defined.

(** C2 as written fails: after one frame whose setup took 480000
    cycles at 240000 cycles per millisecond, [stat] reports a setup mean
    of 2, not the accumulator divided by the sample count. *)
Lemma stat_not_means_by_count :
  monitor_count (mon one_frame) = 1 ∧
  result_of (stat one_frame) = inr (Some (5, 2, 0, 57600)) ∧
  means_by_count one_frame = (5, 480000, 0, 57600) ∧
  result_of (stat one_frame) ≠ inr (Some (means_by_count one_frame)).
Proof.
  split; [reflexivity|]. split; [reflexivity|]. split; [reflexivity|].
  vm_compute. discriminate.
Qed.

(** ** Teardown *)

Lemma pop_trans_results_no_release (h : Z) (pending : nat) :
  List.filter is_release (pop_trans_results h pending) = [].
Proof. induction pending as [|n IH]; [reflexivity | exact IH]. Qed.

(** C8.  On an instance whose [spi] attribute is assigned (every
    instance the constructor returned, before and after a [deinit]),
    [deinit] raises nothing and leaves the device handle, both pixel
    buffers and the scratch buffer null (and the bus host, when a device
    was attached); it releases each handle it held exactly once.  A
    second [deinit] changes nothing and makes no release call: it only
    repeats the deregistration from the graphics framework.

    On an object without that attribute (the constructor raised before
    line 275 and left the object to the finalizer), [deinit] raises
    [AttributeError] at the guard of line 321, after the
    deregistration: it releases nothing and nulls nothing, whatever the
    object holds, and a second [deinit] raises again. *)
Theorem deinit_idempotent (d : driver) (pending pending' : nat) :
  let o1 := deinit pending d in
  let o2 := deinit pending' (state_of o1) in
  (spi_assigned d = true →
     result_of o1 = inr () ∧
     List.filter is_release (calls_of o1) =
       match spi (res d) with
       | Some h => [spi_bus_remove_device h; spi_bus_free (self_spihost (res d))]
       | None => []
       end ++
       match buf1 (res d) with Some b => [heap_caps_free b] | None => [] end ++
       match buf2 (res d) with Some b => [heap_caps_free b] | None => [] end ++
       match trans_buffer (res d) with Some b => [heap_caps_free b] | None => [] end ∧
     res (state_of o1) =
       Resources None
         (match spi (res d) with Some _ => None | None => self_spihost (res d) end)
         None None None ∧
     spi_assigned (state_of o1) = true ∧
     result_of o2 = inr () ∧
     state_of o2 = state_of o1 ∧
     List.filter is_release (calls_of o2) = [] ∧
     calls_of o2 =
       disp_drv_remove ::
       (if asynchronous (cfg d) then [] else [lvesp32_deinit])) ∧
  (spi_assigned d = false →
     o1 = (inl (AttributeError "spi"), d,
           disp_drv_remove ::
           (if asynchronous (cfg d) then [] else [lvesp32_deinit])) ∧
     List.filter is_release (calls_of o1) = [] ∧
     result_of o2 = inl (AttributeError "spi") ∧
     state_of o2 = d).
Proof.
  destruct d as [c sz ms bsz rotv cmds [s h b1 b2 tb] bound mem k m].
  cbv zeta. split; cbn [spi_assigned]; intros ->.
  - destruct (asynchronous c) eqn:Hasync, s, b1, b2, tb;
      unfold deinit, mbind, M_bind, self, call, update, when;
      cbn; repeat (rewrite Hasync; cbn);
      rewrite ?List.filter_app, ?pop_trans_results_no_release;
      repeat split; reflexivity.
  - destruct (asynchronous c) eqn:Hasync;
      unfold deinit, mbind, M_bind, self, call, update, when, raise;
      cbn; repeat (rewrite Hasync; cbn);
      repeat split; reflexivity.
Qed.

(** Teardown of the default board, one transfer being in flight, and a
    second teardown. *)
Lemma deinit_idempotent_witness :
  result_of (deinit 1 booted) = inr () ∧
  List.filter is_release (calls_of (deinit 1 booted)) =
    [spi_bus_remove_device 0x3FFC1000; spi_bus_free (Some 1);
     heap_caps_free 0x3FFB0000; heap_caps_free 0x3FFB8000;
     heap_caps_free 0x3FFC0000] ∧
  res torn_down = Resources None None None None None ∧
  result_of (deinit 0 torn_down) = inr () ∧
  calls_of (deinit 0 torn_down) = [disp_drv_remove; lvesp32_deinit].
Proof.
  pose proof (deinit_idempotent booted 1 0) as H. cbv zeta in H.
  destruct H as [H _].
  destruct H as (Hr & Hrel & Hres & _ & Hr2 & _ & _ & Hcalls);
    [reflexivity|].
  split; [exact Hr|]. split; [exact Hrel|]. split; [exact Hres|].
  split; [exact Hr2 | exact Hcalls].
Defined.

(** C8 fails on the finalizer path.  [GC9A01()] on a platform where
    [spi_bus_add_device] fails raises at line 274 with both pixel
    buffers and the scratch buffer allocated and the finalizer
    registered.  When the finalizer runs [deinit] on that object, the
    guard [if self.spi:] raises [AttributeError]: no buffer is freed or
    nulled, and every further [deinit] raises again. *)
Lemma deinit_raises_when_half_built :
  (construct default_config no_device).1 = inl TransportFailure_device ∧
  In lvesp32_init (construct default_config no_device).2 ∧
  res half_built =
    Resources None (Some 1) (Some 0x3FFB0000) (Some 0x3FFB8000)
              (Some 0x3FFC0000) ∧
  deinit 0 half_built =
    (inl (AttributeError "spi"), half_built,
     [disp_drv_remove; lvesp32_deinit]) ∧
  result_of (deinit 0 (state_of (deinit 0 half_built))) ≠ inr ().
Proof.
  split; [reflexivity|]. split; [vm_compute; tauto|].
  split; [reflexivity|]. split; [reflexivity|].
  vm_compute. discriminate.
Qed.

(** ** Initialization and construction *)

Lemma init_step_run (ev : Z → event) (c : init_cmd) (d : driver) :
  fits c → is_Some (trans_buffer (res d)) →
  init_step (λ ms, call (ev ms)) c d =
    (inr (), set_trans_mem (λ m, after_step m c) d,
     step_events ev (dc (cfg d)) (spi (res d)) c).
Proof.
  destruct c as [cm [bs|] [ms|]]; unfold fits; cbn [data]; intros Hfit Htb;
    unfold init_step, step_events, after_step; cbn [cmd data delay];
    (eapply run_eq;
     [ eapply bind_seq; [apply send_cmd_run|];
       eapply bind_seq;
         [first [apply send_data_run; [exact Hfit | exact Htb] | reflexivity]|];
       reflexivity
     | reflexivity | reflexivity ]).
Qed.

Lemma for_each_init_step (ev : Z → event) (l : list init_cmd) (d : driver) :
  Forall fits l → is_Some (trans_buffer (res d)) →
  for_each l (init_step (λ ms, call (ev ms))) d =
    (inr (), set_trans_mem (λ m, foldl after_step m l) d,
     flat_map (step_events ev (dc (cfg d)) (spi (res d))) l).
Proof.
  intros Hl. revert d. induction Hl as [|c l Hc Hl IH]; intros d Htb.
  - destruct d; reflexivity.
  - cbn [for_each flat_map foldl].
    eapply run_eq;
      [ eapply bind_seq;
          [apply init_step_run; [exact Hc | exact Htb] | apply IH; exact Htb]
      | reflexivity.. ].
Qed.

Lemma _init_run (ev : Z → event) (l : list init_cmd) (d : driver) :
  init_cmds d = Some l → Forall fits l → is_Some (trans_buffer (res d)) →
  _init (λ ms, call (ev ms)) d =
    (inr (), set_trans_mem (λ m, foldl after_step m l) d,
     init_events ev (cfg d) (spi (res d)) l).
Proof.
  intros Hcmds Hl Htb.
  unfold _init, init_events, init_prologue, init_epilogue, when.
  rewrite self_bind.
  destruct (bool_decide (rst (cfg d) ≠ -1)),
           (bool_decide (backlight (cfg d) ≠ -1)),
           (bool_decide (power (cfg d) ≠ -1));
  (eapply run_eq;
   [ repeat run_step;
     rewrite Hcmds;
     (eapply bind_seq; [apply for_each_init_step; [exact Hl | exact Htb]|]);
     run_step; reflexivity
   | reflexivity | cbn [app]; rewrite ?app_nil_r, <- ?app_assoc; reflexivity ]).
Qed.

Lemma init_table_fits (rotv : Z) : Forall fits (init_table rotv).
Proof.
  unfold init_table.
  repeat (apply List.Forall_cons; [unfold fits, TRANS_BUFFER_LEN; cbn; lia|]).
  apply List.Forall_nil.
Qed.

Lemma init_events_no_malloc (c : config) (h : option Z) (l : list init_cmd) :
  List.filter is_malloc (init_events utime_sleep_ms c h l) = [].
Proof.
  unfold init_events, init_prologue, init_epilogue.
  rewrite !List.filter_app.
  assert (Hl : List.filter is_malloc (flat_map (step_events utime_sleep_ms (dc c) h) l) = []).
  { induction l as [|[cm [bs|] [ms|]] l IH]; [reflexivity|..];
      cbn [flat_map]; rewrite List.filter_app, IH; reflexivity. }
  rewrite Hl.
  destruct (bool_decide (rst c ≠ -1)), (bool_decide (backlight c ≠ -1)),
           (bool_decide (power c ≠ -1)); reflexivity.
Qed.


Lemma disp_spi_init_result (p : platform) (d : driver) :
  result_of (disp_spi_init p d) =
  if bus_pins (cfg d) && bool_decide (spi_bus_initialize_ret p ≠ 0)
  then inl TransportFailure_bus
  else match malloc_trans p with
       | None => inl (AttributeError "__dereference__")
       | Some _ =>
           if bool_decide (spi_bus_add_device_ret p ≠ 0)
           then inl TransportFailure_device
           else inr ()
       end.
Proof.
  unfold disp_spi_init, bus_pins, when. rewrite !self_bind.
  destruct (asynchronous (cfg d)),
    (bool_decide (miso (cfg d) >= 0)), (bool_decide (mosi (cfg d) >= 0)),
    (bool_decide (clk (cfg d) >= 0)),
    (bool_decide (spi_bus_initialize_ret p ≠ 0)),
    (malloc_trans p),
    (bool_decide (spi_bus_add_device_ret p ≠ 0)); reflexivity.
Qed.

Lemma disp_spi_init_run (p : platform) (d : driver) :
  result_of (disp_spi_init p d) = inr () →
  disp_spi_init p d =
    (inr (),
     assign_spi (Some (spi_handle p))
       (set_res (λ r, Resources (spi r) (self_spihost r) (buf1 r) (buf2 r)
                                (malloc_trans p))
          (set_trans_mem (λ _, malloc_trans_mem p) d)),
     calls_of (disp_spi_init p d)) ∧
  List.filter is_malloc (calls_of (disp_spi_init p d)) =
    [heap_caps_malloc TRANS_BUFFER_LEN].
Proof.
  unfold disp_spi_init, bus_pins, when. rewrite !self_bind.
  destruct (asynchronous (cfg d)),
    (bool_decide (miso (cfg d) >= 0)), (bool_decide (mosi (cfg d) >= 0)),
    (bool_decide (clk (cfg d) >= 0)),
    (bool_decide (spi_bus_initialize_ret p ≠ 0)),
    (malloc_trans p),
    (bool_decide (spi_bus_add_device_ret p ≠ 0));
    first [discriminate | intros _; split; reflexivity].
Qed.

Lemma spi_ok (c : config) (p : platform) :
  bus_pins c && bool_decide (spi_bus_initialize_ret p ≠ 0) = false →
  is_Some (malloc_trans p) →
  bool_decide (spi_bus_add_device_ret p ≠ 0) = false →
  ∀ d, cfg d = c → result_of (disp_spi_init p d) = inr ().
Proof.
  intros Hbus [b Hb] Hadd d <-.
  rewrite disp_spi_init_result, Hbus, Hb, Hadd. reflexivity.
Qed.

Lemma __init___run (c : config) (p : platform) (opcode : Z) :
  factor c ≠ 0 → invert c = false →
  is_Some (malloc_buf1 p) → lv_color_size p ≠ 0 →
  is_Some (malloc_trans p) →
  (∀ d, cfg d = c → result_of (disp_spi_init p d) = inr ()) →
  ROTATE !! rotation c = Some opcode →
  ∃ t,
    __init__ p (blank c p) = (inr (), constructed c p opcode, t) ∧
    List.filter is_malloc t =
      heap_caps_malloc (buf_size (constructed c p opcode)) ::
      (if double_buffer c
       then [heap_caps_malloc (buf_size (constructed c p opcode))] else []) ++
      [heap_caps_malloc TRANS_BUFFER_LEN] ∧
    (if initialize c
     then init_events utime_sleep_ms c (Some (spi_handle p)) (init_table opcode)
     else []) `suffix_of` t.
Proof.
  intros Hfac Hinv [b1 Hb1] Hsz Htb Hspi Hrot.
  unfold __init__, constructed, floordiv, when.
  rewrite self_bind. cbn [cfg blank].
  rewrite Hinv, Hrot, Hb1.
  rewrite (bool_decide_eq_false_2 _ Hfac), (bool_decide_eq_false_2 _ Hsz).
  destruct (double_buffer c), (initialize c); eexists;
  (split;
   [ eapply run_eq;
     [ repeat run_step;
       (eapply bind_seq;
          [apply disp_spi_init_run; apply Hspi; reflexivity|]);
       do 3 run_step;
       first [ apply _init_run;
                 [reflexivity | apply init_table_fits | exact Htb]
             | reflexivity ]
     | reflexivity | reflexivity ]
   | split;
     [ unfold calls_of; cbn [app snd List.filter is_malloc buf_size];
       rewrite ?List.filter_app, ?init_events_no_malloc;
       match goal with
       | |- context [(disp_spi_init p ?d).2] =>
           change ((disp_spi_init p d).2) with (calls_of (disp_spi_init p d));
           rewrite (proj2 (disp_spi_init_run p d (Hspi d eq_refl)))
       end;
       reflexivity
     | repeat first [ apply suffix_nil | reflexivity | apply suffix_app_r ] ] ]).
Qed.

Lemma disp_spi_init_result_at (c : config) (p : platform) (d : driver) :
  cfg d = c →
  result_of (disp_spi_init p d) =
  if bus_pins c && bool_decide (spi_bus_initialize_ret p ≠ 0)
  then inl TransportFailure_bus
  else match malloc_trans p with
       | None => inl (AttributeError "__dereference__")
       | Some _ =>
           if bool_decide (spi_bus_add_device_ret p ≠ 0)
           then inl TransportFailure_device
           else inr ()
       end.
Proof. intros <-. apply disp_spi_init_result. Qed.

Lemma __init___result (c : config) (p : platform) :
  result_of (__init__ p (blank c p)) = construct_outcome c p.
Proof.
  unfold construct_outcome.
  destruct (bool_decide (factor c = 0)) eqn:Hfac.
  { unfold __init__, floordiv. rewrite self_bind. cbn [cfg blank].
    rewrite Hfac. reflexivity. }
  destruct (invert c) eqn:Hinv.
  { unfold __init__, floordiv. rewrite self_bind. cbn [cfg blank].
    rewrite Hfac, Hinv. reflexivity. }
  destruct (bool_decide (is_Some (malloc_buf1 p))) eqn:Hb1; cbn [negb].
  2:{ unfold __init__, floordiv. rewrite self_bind. cbn [cfg blank].
      rewrite Hfac, Hinv.
      destruct (malloc_buf1 p); [discriminate|].
      destruct (double_buffer c); reflexivity. }
  destruct (bool_decide (lv_color_size p = 0)) eqn:Hsz.
  { unfold __init__, floordiv. rewrite self_bind. cbn [cfg blank].
    rewrite Hfac, Hinv, Hsz.
    destruct (malloc_buf1 p); [|discriminate].
    destruct (double_buffer c); reflexivity. }
  pose proof (λ d, disp_spi_init_result_at c p d) as Hres.
  destruct (bus_pins c && bool_decide (spi_bus_initialize_ret p ≠ 0)) eqn:Hbus;
    [|destruct (malloc_trans p) as [tb|] eqn:Htb;
      [destruct (bool_decide (spi_bus_add_device_ret p ≠ 0)) eqn:Hadd;
       [|destruct (ROTATE !! rotation c) as [opcode|] eqn:Hrot]|]].
  3:{ (* every step succeeds *)
      apply bool_decide_eq_false_1 in Hfac, Hsz.
      apply bool_decide_eq_true_1 in Hb1.
      destruct (__init___run c p opcode Hfac Hinv Hb1 Hsz
                  (ex_intro _ tb Htb) Hres Hrot)
        as (t & -> & _).
      reflexivity. }
  all: unfold __init__, floordiv, when; rewrite self_bind; cbn [cfg blank];
    rewrite Hfac, Hinv, Hsz, ?Hrot;
    (destruct (malloc_buf1 p); [|discriminate]);
    destruct (double_buffer c); run_result; cbn beta;
    first
      [ eapply bind_result_raise; apply Hres; reflexivity
      | eapply eq_trans;
        [ eapply bind_result_run; apply disp_spi_init_run; apply Hres;
          reflexivity |];
        reflexivity ].
Qed.

Lemma construct_result (c : config) (p : platform) :
  (construct c p).1 =
  match construct_outcome c p with
  | inl e => inl e
  | inr _ => inr (state_of (__init__ p (blank c p)))
  end.
Proof.
  rewrite <- __init___result. unfold construct, result_of, state_of.
  destruct (__init__ p (blank c p)) as [[[e|u] d] t]; reflexivity.
Qed.

Lemma construct_raises (c : config) (p : platform) (e : exn) :
  construct_outcome c p = inl e → ∃ t, construct c p = (inl e, t).
Proof.
  intros H. exists (construct c p).2.
  pose proof (construct_result c p) as Hr. rewrite H in Hr.
  destruct (construct c p) as [r t]. cbn in *. rewrite Hr. reflexivity.
Qed.

Lemma outcome_ok (c : config) (p : platform) :
  construct_outcome c p = inr () ↔
  factor c ≠ 0 ∧ invert c = false ∧ platform_ok c p ∧
  is_Some (ROTATE !! rotation c).
Proof.
  unfold construct_outcome, platform_ok. split.
  - destruct (bool_decide (factor c = 0)) eqn:Hfac; [discriminate|].
    destruct (invert c); [discriminate|].
    destruct (bool_decide (is_Some (malloc_buf1 p))) eqn:Hb1; [|discriminate].
    destruct (bool_decide (lv_color_size p = 0)) eqn:Hsz; [discriminate|].
    destruct (bus_pins c && bool_decide (spi_bus_initialize_ret p ≠ 0)) eqn:Hbus;
      [discriminate|].
    destruct (malloc_trans p) as [tb|]; [|discriminate].
    destruct (bool_decide (spi_bus_add_device_ret p ≠ 0)) eqn:Hadd; [discriminate|].
    destruct (ROTATE !! rotation c) as [opcode|]; [|discriminate].
    intros _.
    apply bool_decide_eq_false_1 in Hfac, Hsz, Hadd.
    apply bool_decide_eq_true_1 in Hb1.
    repeat split; eauto.
    + intros Hpins. rewrite Hpins in Hbus. cbn in Hbus.
      apply bool_decide_eq_false_1 in Hbus.
      destruct (decide (spi_bus_initialize_ret p = 0)); [assumption|contradiction].
    + destruct (decide (spi_bus_add_device_ret p = 0)); [assumption|contradiction].
  - intros (Hfac & Hinv & (Hsz & Hb1 & [tb Htb] & Hbus & Hadd) & [opcode Hrot]).
    rewrite (bool_decide_eq_false_2 _ Hfac), Hinv, (bool_decide_eq_true_2 _ Hb1),
      (bool_decide_eq_false_2 _ Hsz), Htb, Hrot, Hadd.
    cbn [negb].
    destruct (bus_pins c); cbn [andb]; [rewrite (Hbus eq_refl)|]; reflexivity.
Qed.

Lemma construct_returns (c : config) (p : platform) (opcode : Z) :
  factor c ≠ 0 → invert c = false → platform_ok c p →
  ROTATE !! rotation c = Some opcode →
  ∃ t,
    construct c p = (inr (constructed c p opcode), t) ∧
    List.filter is_malloc t =
      heap_caps_malloc (buf_size (constructed c p opcode)) ::
      (if double_buffer c
       then [heap_caps_malloc (buf_size (constructed c p opcode))] else []) ++
      [heap_caps_malloc TRANS_BUFFER_LEN] ∧
    (if initialize c
     then init_events utime_sleep_ms c (Some (spi_handle p)) (init_table opcode)
     else []) `suffix_of` t.
Proof.
  intros Hfac Hinv (Hsz & Hb1 & Htb & Hbus & Hadd) Hrot.
  assert (Hspi : ∀ d, cfg d = c → result_of (disp_spi_init p d) = inr ()).
  { apply spi_ok; [|assumption|rewrite Hadd; reflexivity].
    destruct (bus_pins c); cbn [andb]; [rewrite (Hbus eq_refl)|]; reflexivity. }
  destruct (__init___run c p opcode Hfac Hinv Hb1 Hsz Htb Hspi Hrot)
    as (t & Hrun & Hmalloc & Hsuffix).
  exists t. unfold construct. rewrite Hrun. auto.
Qed.

Lemma construct_inv (c : config) (p : platform) (d : driver) (t : list event) :
  construct c p = (inr d, t) →
  ∃ opcode,
    factor c ≠ 0 ∧ invert c = false ∧ platform_ok c p ∧
    ROTATE !! rotation c = Some opcode ∧ d = constructed c p opcode.
Proof.
  intros H.
  pose proof (construct_result c p) as Hr. rewrite H in Hr. cbn [fst] in Hr.
  destruct (construct_outcome c p) as [e|[]] eqn:Hout; [discriminate|].
  apply outcome_ok in Hout as (Hfac & Hinv & Hok & [opcode Hrot]).
  exists opcode. repeat (split; [assumption|]).
  destruct (construct_returns c p opcode Hfac Hinv Hok Hrot) as (t' & H' & _).
  congruence.
Qed.

Lemma ROTATE_lookup (r : Z) :
  ROTATE !! r =
  if bool_decide (r = 0) then Some 0x18
  else if bool_decide (r = 90) then Some 0x28
  else if bool_decide (r = 180) then Some 0x48
  else if bool_decide (r = 270) then Some 0x88
  else None.
Proof.
  unfold ROTATE.
  do 4 (case_bool_decide as Hr;
        [subst r; apply lookup_insert_eq
        |rewrite lookup_insert_ne by congruence; clear Hr]).
  apply lookup_empty.
Qed.

(** ** Construction: invert flag, rotation, buffers *)

Lemma construct_invert_raises (c : config) (p : platform) :
  invert c = true → factor c ≠ 0 →
  construct c p = (inl (AttributeError "init_cmds"), []).
Proof.
  intros Hinv Hfac. unfold construct, __init__, floordiv, when.
  rewrite self_bind. cbn [cfg blank].
  rewrite Hinv, (bool_decide_eq_false_2 _ Hfac). reflexivity.
Qed.

(** C3 at its failing input.  [GC9A01(invert=True)] raises
    [AttributeError] before any call is made: line 110 appends to
    [self.init_cmds], which is assigned only at line 144.  The same
    call without the flag returns an instance carrying the 51-entry
    table. *)
Theorem invert_flag_raises :
  construct inverted_config esp32 = (inl (AttributeError "init_cmds"), []) ∧
  ∃ d t, construct default_config esp32 = (inr d, t) ∧
         init_cmds d = Some (init_table 0x18) ∧
         length (init_table 0x18) = 51%nat.
Proof.
  split; [apply construct_invert_raises; [reflexivity | discriminate]|].
  destruct (construct_returns default_config esp32 0x18)
    as (t & Hrun & _); try reflexivity; try discriminate.
  - unfold platform_ok. cbn. repeat split; eauto; discriminate.
  - eexists _, t. split; [exact Hrun|]. split; reflexivity.
Qed.

Lemma init_events_split (ev : Z → event) (c : config) (h : option Z)
    (l1 l2 : list init_cmd) (e : init_cmd) :
  ∃ pre post,
    init_events ev c h (l1 ++ e :: l2) = pre ++ step_events ev (dc c) h e ++ post.
Proof.
  exists (init_prologue ev c ++ flat_map (step_events ev (dc c) h) l1),
         (flat_map (step_events ev (dc c) h) l2 ++ init_epilogue c).
  unfold init_events. rewrite flat_map_app. cbn [flat_map].
  rewrite <- !app_assoc. reflexivity.
Qed.

Lemma init_constructed (c : config) (p : platform) (opcode : Z) :
  is_Some (malloc_trans p) →
  init (constructed c p opcode) =
  (inr (),
   set_trans_mem (λ m, foldl after_step m (init_table opcode))
     (constructed c p opcode),
   init_events utime_sleep_ms c (Some (spi_handle p)) (init_table opcode)).
Proof.
  intros Htb. apply _init_run; [reflexivity | apply init_table_fits | exact Htb].
Qed.

(** C4.  When the other steps of the construction succeed, a rotation
    of 0, 90, 180 or 270 yields an instance whose twentieth table entry
    has the opcode 0x18, 0x28, 0x48 or 0x88, and [init] sends that
    opcode in command mode (it has run already when [initialize] is
    set); any other rotation makes the construction raise, with
    [RuntimeError('Rotation must be 0, 90, 180 or 270.')] when the
    steps before the check succeed. *)
Theorem rotation_opcode_or_error (c : config) (p : platform) :
  (∀ opcode,
     In (rotation c, opcode) [(0, 0x18); (90, 0x28); (180, 0x48); (270, 0x88)] →
     factor c ≠ 0 → invert c = false → platform_ok c p →
     ∃ t,
       construct c p = (inr (constructed c p opcode), t) ∧
       self_rotation (constructed c p opcode) = opcode ∧
       init_cmds (constructed c p opcode) = Some (init_table opcode) ∧
       init_table opcode !! 19%nat = Some (InitCmd opcode (Some [0]) None) ∧
       result_of (init (constructed c p opcode)) = inr () ∧
       (∃ pre post,
          calls_of (init (constructed c p opcode)) =
          pre ++ [gpio_set_level (dc c) 0;
                  spi_device_polling_transmit (Some (spi_handle p)) 8 [opcode];
                  gpio_set_level (dc c) 1;
                  spi_device_polling_transmit (Some (spi_handle p)) 8 [0]]
              ++ post) ∧
       (if initialize c
        then calls_of (init (constructed c p opcode)) `suffix_of` t
        else True)) ∧
  (¬ In (rotation c) [0; 90; 180; 270] →
     (∃ e t, construct c p = (inl e, t)) ∧
     (factor c ≠ 0 → invert c = false → platform_ok c p →
      ∃ t, construct c p = (inl ConfigurationError, t))).
Proof.
  split.
  - intros opcode Hin Hfac Hinv Hok.
    assert (Hrot : ROTATE !! rotation c = Some opcode ∧ Z.land opcode 0xFF = opcode).
    { rewrite ROTATE_lookup.
      destruct Hin as [[= <- <-]|[[= <- <-]|[[= <- <-]|[[= <- <-]|[]]]]];
        split; reflexivity. }
    destruct Hrot as [Hrot Hbyte].
    destruct (construct_returns c p opcode Hfac Hinv Hok Hrot)
      as (t & Hrun & _ & Hsuffix).
    exists t. rewrite (init_constructed c p opcode (proj1 (proj2 (proj2 Hok)))).
    unfold result_of, calls_of. cbn [fst snd].
    repeat (split; [first [assumption | reflexivity]|]).
    split; [|destruct (initialize c); [exact Hsuffix | exact I]].
    destruct (init_events_split utime_sleep_ms c (Some (spi_handle p))
                (take 19 (init_table opcode)) (drop 20 (init_table opcode))
                (InitCmd opcode (Some [0]) None)) as (pre & post & Hsplit).
    exists pre, post.
    change (init_table opcode)
      with (take 19 (init_table opcode)
            ++ InitCmd opcode (Some [0]) None :: drop 20 (init_table opcode)) at 1.
    rewrite Hsplit. unfold step_events. cbn [cmd data delay length app].
    rewrite Hbyte. reflexivity.
  - intros Hout.
    assert (Hrot : ROTATE !! rotation c = None).
    { rewrite ROTATE_lookup.
      repeat (case_bool_decide as Hr;
              [exfalso; apply Hout; rewrite Hr; cbn; tauto | clear Hr]).
      reflexivity. }
    split.
    + destruct (construct c p) as [[e|d] t] eqn:Hc; [eauto|].
      apply construct_inv in Hc as (opcode & _ & _ & _ & Hsome & _).
      congruence.
    + intros Hfac Hinv Hok. apply construct_raises.
      destruct (construct_outcome c p) as [e|[]] eqn:Ho.
      * revert Ho. unfold construct_outcome.
        destruct Hok as (Hsz & Hb1 & [tb Htb] & Hbus & Hadd).
        rewrite (bool_decide_eq_false_2 _ Hfac), Hinv,
          (bool_decide_eq_true_2 _ Hb1), (bool_decide_eq_false_2 _ Hsz),
          Htb, Hrot, Hadd.
        cbn [negb].
        destruct (bus_pins c); cbn [andb]; [rewrite (Hbus eq_refl)|];
          intros <-; reflexivity.
      * apply outcome_ok in Ho as (_ & _ & _ & [opcode Hsome]). congruence.
Qed.

Lemma rotation_opcode_or_error_witness :
  (∃ t, construct (with_flags false true 90) esp32 =
        (inr (constructed (with_flags false true 90) esp32 0x28), t)) ∧
  (∃ t, construct skewed_config esp32 = (inl ConfigurationError, t)).
Proof.
  assert (Hok : ∀ c, platform_ok c esp32).
  { intros c. unfold platform_ok. cbn. repeat split; eauto; discriminate. }
  split.
  - destruct (proj1 (rotation_opcode_or_error (with_flags false true 90) esp32)
                0x28) as (t & Hrun & _).
    + cbn. tauto.
    + discriminate.
    + reflexivity.
    + apply Hok.
    + exists t. exact Hrun.
  - apply (proj2 (rotation_opcode_or_error skewed_config esp32)).
    + cbn. intros [H|[H|[H|[H|[]]]]]; discriminate H.
    + discriminate.
    + reflexivity.
    + apply Hok.
Defined.



(** C10.  Whatever the arguments, an instance the construction returns
    carries the 51-entry table whose entry 48 is the opcode 0x21 with
    payload [0], and [init] sends it: 0x21 in command mode, then the
    byte 0 in data mode.  When [initialize] is set these calls are part
    of the construction itself. *)
Theorem inversion_always_sent
    (c : config) (p : platform) (d : driver) (t : list event) :
  construct c p = (inr d, t) →
  ∃ rotv,
    init_cmds d = Some (init_table rotv) ∧
    length (init_table rotv) = 51%nat ∧
    init_table rotv !! 48%nat = Some (InitCmd 0x21 (Some [0]) None) ∧
    result_of (init d) = inr () ∧
    (∃ pre post,
       calls_of (init d) =
       pre ++ [gpio_set_level (dc c) 0;
               spi_device_polling_transmit (spi (res d)) 8 [0x21];
               gpio_set_level (dc c) 1;
               spi_device_polling_transmit (spi (res d)) 8 [0]]
           ++ post) ∧
    (if initialize c then calls_of (init d) `suffix_of` t else True).
Proof.
  intros Hc.
  destruct (construct_inv c p d t Hc)
    as (opcode & Hfac & Hinv & Hok & Hrot & ->).
  destruct (construct_returns c p opcode Hfac Hinv Hok Hrot)
    as (t' & Hrun & _ & Hsuffix).
  assert (t' = t) as -> by congruence.
  exists opcode. rewrite (init_constructed c p opcode (proj1 (proj2 (proj2 Hok)))).
  unfold result_of, calls_of. cbn [fst snd].
  repeat (split; [reflexivity|]).
  split; [|destruct (initialize c); [exact Hsuffix | exact I]].
  destruct (init_events_split utime_sleep_ms c (Some (spi_handle p))
              (take 48 (init_table opcode)) (drop 49 (init_table opcode))
              (InitCmd 0x21 (Some [0]) None)) as (pre & post & Hsplit).
  exists pre, post.
  change (init_table opcode)
    with (take 48 (init_table opcode)
          ++ InitCmd 0x21 (Some [0]) None :: drop 49 (init_table opcode)) at 1.
  rewrite Hsplit. reflexivity.
Qed.

Lemma inversion_always_sent_witness :
  ∃ pre post,
    calls_of (init (constructed deferred_config esp32 0x18)) =
    pre ++ [gpio_set_level 12 0;
            spi_device_polling_transmit (Some 0x3FFC1000) 8 [0x21];
            gpio_set_level 12 1;
            spi_device_polling_transmit (Some 0x3FFC1000) 8 [0]]
        ++ post.
Proof.
  destruct (inversion_always_sent deferred_config esp32
              (constructed deferred_config esp32 0x18)
              (construct deferred_config esp32).2)
    as (rotv & _ & _ & _ & _ & Hsent & _).
  - reflexivity.
  - exact Hsent.
Defined.

(** ** Further properties of the driver *)

Section Emits.
  Context (P : event → Prop).

Lemma emits_ret {A} (a : A) : emits P (mret a).
Proof. intros d. constructor. Qed.

Lemma emits_raise {A} (e : exn) : emits P (raise e : M A).
Proof. intros d. constructor. Qed.

Lemma emits_self {A} (f : driver → A) : emits P (self f).
Proof. intros d. constructor. Qed.

Lemma emits_update (f : driver → driver) : emits P (update f).
Proof. intros d. constructor. Qed.

Lemma emits_call (ev : event) : P ev → emits P (call ev).
Proof. intros H d. repeat constructor. exact H. Qed.

Lemma emits_bind {A B} (m : M A) (k : A → M B) :
  emits P m → (∀ a, emits P (k a)) → emits P (m ≫= k).
Proof.
  intros Hm Hk d. specialize (Hm d). unfold mbind, M_bind, calls_of in *.
  destruct (m d) as [[[e|a] d1] t1]; cbn in *; [exact Hm|].
  specialize (Hk a d1). unfold calls_of in Hk.
  destruct (k a d1) as [[r d2] t2]. cbn in *.
  apply Forall_app. split; assumption.
Qed.

Lemma emits_when (b : bool) (m : M unit) : emits P m → emits P (when b m).
Proof. intros H. destruct b; [exact H | apply emits_ret]. Qed.

Lemma emits_for_each {A} (l : list A) (body : A → M unit) :
  (∀ a, emits P (body a)) → emits P (for_each l body).
Proof.
  intros H. induction l as [|a l IH]; cbn [for_each].
  - apply emits_ret.
  - apply emits_bind; [apply H | intros _; exact IH].
Qed.

End Emits.

Ltac emits_step :=
  first
    [ apply emits_ret | apply emits_raise | apply emits_self
    | apply emits_update | apply emits_call
    | apply emits_when | apply emits_for_each; intros ?
    | apply emits_bind; [|intros ?] ].

Ltac plain_event := split; [exact I | reflexivity].

Lemma length_view n m : length (view n m) = n.
Proof. unfold view. rewrite length_map, length_seq. reflexivity. Qed.

Lemma emits_send_cmd c : emits acquiring (send_cmd c).
Proof.
  intros d. rewrite send_cmd_run. unfold calls_of. cbn [snd].
  constructor; [plain_event|]. constructor; [|constructor].
  split; [|reflexivity].
  split; [reflexivity | unfold TRANS_BUFFER_LEN; cbn; lia].
Qed.

Lemma emits_send_data bs : emits acquiring (send_data bs).
Proof.
  intros d.
  destruct (decide (Z.of_nat (length bs) > TRANS_BUFFER_LEN)) as [H|H].
  - rewrite send_data_raise by exact H. repeat constructor.
  - destruct (trans_buffer (res d)) as [tb|] eqn:Htb.
    + rewrite send_data_run by (eauto || lia). unfold calls_of. cbn [snd].
      constructor; [plain_event|]. constructor; [|constructor].
      split; [|reflexivity]. split; [reflexivity | lia].
    + rewrite send_data_no_buffer by (assumption || lia). repeat constructor.
Qed.

Lemma emits_send_trans_word : emits acquiring send_trans_word.
Proof.
  intros d. unfold calls_of. cbn.
  constructor; [plain_event|]. constructor; [|constructor].
  split; [|reflexivity].
  split; [reflexivity | rewrite length_view; unfold TRANS_BUFFER_LEN; lia].
Qed.

Lemma emits_send_data_dma p n : emits acquiring (send_data_dma p n).
Proof. intros d. unfold calls_of. cbn. repeat constructor. Qed.

Lemma emits_init_step sleep c :
  (∀ ms, emits acquiring (sleep ms)) → emits acquiring (init_step sleep c).
Proof.
  intros Hs. unfold init_step.
  apply emits_bind; [apply emits_send_cmd | intros _].
  apply emits_bind;
    [destruct (data c); [apply emits_send_data | apply emits_ret] | intros _].
  destruct (delay c); [apply Hs | apply emits_ret].
Qed.

Lemma emits__init sleep :
  (∀ ms, emits acquiring (sleep ms)) → emits acquiring (_init sleep).
Proof.
  intros Hs. unfold _init.
  repeat first
    [ apply Hs | apply emits_init_step; exact Hs
    | match goal with |- emits _ (match ?o with _ => _ end) => destruct o end
    | emits_step; try plain_event ].
Qed.

Lemma emits_flush a p t0 t1 t2 : emits acquiring (flush a p t0 t1 t2).
Proof.
  unfold flush.
  repeat first
    [ apply emits_send_cmd | apply emits_send_trans_word
    | apply emits_send_data_dma | emits_step; try plain_event ].
Qed.

Lemma emits_disp_spi_init p : emits acquiring (disp_spi_init p).
Proof.
  unfold disp_spi_init.
  repeat first
    [ match goal with |- emits _ (match ?o with _ => _ end) => destruct o end
    | emits_step; try plain_event ].
Qed.

Lemma emits___init__ p : emits acquiring (__init__ p).
Proof.
  unfold __init__, floordiv.
  repeat first
    [ match goal with
      | |- emits _ (disp_spi_init _) => apply emits_disp_spi_init
      | |- emits _ init =>
          apply emits__init; intros ms; apply emits_call; plain_event
      | |- emits _ (match ?o with _ => _ end) => destruct o
      end
    | emits_step; try plain_event ].
Qed.

(** X1.  Every SPI transaction the driver issues, in construction, in
    [init] and [init_async], in [flush] and in [send_data], from any
    state and whether or not the method raises, has a bit length of
    eight times its byte count; a blocking transmit never sends more
    than the 16 bytes of the scratch buffer. *)
Theorem transactions_fit_scratch_buffer :
  (∀ c p, Forall well_formed (construct c p).2) ∧
  (∀ d, Forall well_formed (calls_of (init d))) ∧
  (∀ d, Forall well_formed (calls_of (init_async d))) ∧
  (∀ a color_p t0 t1 t2 d,
     Forall well_formed (calls_of (flush a color_p t0 t1 t2 d))) ∧
  (∀ bs d, Forall well_formed (calls_of (send_data bs d))).
Proof.
  assert (Hweak : ∀ t, Forall acquiring t → Forall well_formed t).
  { intros t Ht. eapply Forall_impl; [exact Ht|]. intros e [H _]. exact H. }
  repeat split; intros; apply Hweak.
  - pose proof (emits___init__ p (blank c p)) as H. unfold construct, calls_of in *.
    destruct (__init__ p (blank c p)) as [[[e|u] d] t]; exact H.
  - apply emits__init. intros ms. apply emits_call. plain_event.
  - apply emits__init. intros ms. apply emits_call. plain_event.
  - apply emits_flush.
  - apply emits_send_data.
Qed.

(** The constructor hands nothing back. *)
Lemma construct_no_release (c : config) (p : platform) :
  Forall (λ e, is_release e = false) (construct c p).2.
Proof.
  pose proof (emits___init__ p (blank c p)) as H. unfold construct, calls_of in *.
  destruct (__init__ p (blank c p)) as [[[e|u] d] t]; cbn [snd] in *;
    (eapply Forall_impl; [exact H | intros ? [_ Hr]; exact Hr]).
Qed.

(** X2.  The constructor never frees a buffer, removes the device or
    frees the bus, on any path: what it allocated before raising stays
    allocated. *)
Theorem construction_releases_nothing (c : config) (p : platform) :
  Forall (λ e, is_release e = false) (construct c p).2 ∧
  List.filter is_release (construct c p).2 = [].
Proof.
  pose proof (construct_no_release c p) as H.
  split; [exact H|].
  induction H as [|e t He _ IH]; [reflexivity|].
  cbn [List.filter]. rewrite He. exact IH.
Qed.

(** X3.  The constructor returns an instance exactly when [factor] is
    not zero, [invert] is unset, the platform calls succeed and
    [rotation] is a key of [ROTATE]; it raises [e] exactly when its
    checks, in program order, give [e]. *)
Theorem construct_returns_iff (c : config) (p : platform) :
  ((∃ d t, construct c p = (inr d, t)) ↔
   factor c ≠ 0 ∧ invert c = false ∧ platform_ok c p ∧
   is_Some (ROTATE !! rotation c)) ∧
  (∀ e, (∃ t, construct c p = (inl e, t)) ↔ construct_outcome c p = inl e).
Proof.
  pose proof (construct_result c p) as Hr.
  split; [split|intros e; split].
  - intros (d & t & H). rewrite H in Hr. cbn [fst] in Hr.
    destruct (construct_outcome c p) as [e|[]] eqn:Ho; [discriminate|].
    apply outcome_ok. exact Ho.
  - intros H. apply outcome_ok in H. rewrite H in Hr.
    destruct (construct c p) as [r t]. cbn [fst] in Hr. subst r. eauto.
  - intros (t & H). rewrite H in Hr. cbn [fst] in Hr.
    destruct (construct_outcome c p) as [e'|[]]; congruence.
  - apply construct_raises.
Qed.

Lemma disp_spi_init_attaches (p : platform) (d : driver) :
  result_of (disp_spi_init p d) = inr () →
  In (spi_bus_add_device (spihost (cfg d)) (mhz (cfg d) * 1000 * 1000)
        (cs (cfg d)) (half_duplex (cfg d)))
     (calls_of (disp_spi_init p d)).
Proof.
  unfold disp_spi_init, bus_pins, when. rewrite !self_bind.
  destruct (asynchronous (cfg d)),
    (bool_decide (miso (cfg d) >= 0)), (bool_decide (mosi (cfg d) >= 0)),
    (bool_decide (clk (cfg d) >= 0)),
    (bool_decide (spi_bus_initialize_ret p ≠ 0)),
    (malloc_trans p),
    (bool_decide (spi_bus_add_device_ret p ≠ 0));
    first [discriminate
          | intros _; cbn; repeat first [left; reflexivity | right] ].
Qed.

(** X4.  An invalid [rotation] is rejected only after the pixel
    buffers and the scratch buffer are allocated and the device is
    attached to the bus, and nothing of this is released when the
    [RuntimeError] leaves the constructor. *)
Theorem rotation_checked_after_allocation (c : config) (p : platform) :
  factor c ≠ 0 → invert c = false → platform_ok c p →
  ROTATE !! rotation c = None →
  ∃ t,
    construct c p = (inl ConfigurationError, t) ∧
    List.filter is_malloc t =
      heap_caps_malloc (width c * height c * lv_color_size p / factor c) ::
      (if double_buffer c
       then [heap_caps_malloc (width c * height c * lv_color_size p / factor c)]
       else []) ++
      [heap_caps_malloc TRANS_BUFFER_LEN] ∧
    In (spi_bus_add_device (spihost c) (mhz c * 1000 * 1000) (cs c)
          (half_duplex c)) t ∧
    Forall (λ e, is_release e = false) t.
Proof.
  intros Hfac Hinv (Hsz & [b1 Hb1] & Htb & Hbus & Hadd) Hrot.
  assert (Hspi : ∀ d, cfg d = c → result_of (disp_spi_init p d) = inr ()).
  { apply spi_ok; [|assumption|rewrite Hadd; reflexivity].
    destruct (bus_pins c); cbn [andb]; [rewrite (Hbus eq_refl)|]; reflexivity. }
  assert (Hrun : ∃ d' t,
    __init__ p (blank c p) = (inl ConfigurationError, d', t) ∧
    List.filter is_malloc t =
      heap_caps_malloc (width c * height c * lv_color_size p / factor c) ::
      (if double_buffer c
       then [heap_caps_malloc (width c * height c * lv_color_size p / factor c)]
       else []) ++
      [heap_caps_malloc TRANS_BUFFER_LEN] ∧
    In (spi_bus_add_device (spihost c) (mhz c * 1000 * 1000) (cs c)
          (half_duplex c)) t).
  { unfold __init__, floordiv, when.
    rewrite self_bind. cbn [cfg blank].
    rewrite Hinv, Hrot, Hb1.
    rewrite (bool_decide_eq_false_2 _ Hfac), (bool_decide_eq_false_2 _ Hsz).
    destruct (double_buffer c); eexists _, _;
    (split;
     [ repeat run_step;
       (eapply bind_seq;
          [apply disp_spi_init_run; apply Hspi; reflexivity|]);
       reflexivity
     | split;
       [ unfold calls_of; cbn [app snd List.filter is_malloc];
         rewrite ?List.filter_app;
         match goal with
         | |- context [(disp_spi_init p ?d).2] =>
             change ((disp_spi_init p d).2) with (calls_of (disp_spi_init p d));
             rewrite (proj2 (disp_spi_init_run p d (Hspi d eq_refl)))
         end;
         reflexivity
       | rewrite !in_app_iff;
         repeat first
           [ left;
             match goal with
             | |- In _ (calls_of (disp_spi_init p ?d)) =>
                 apply (disp_spi_init_attaches p d (Hspi d eq_refl))
             end
           | right ] ] ]). }
  destruct Hrun as (d' & t & Hrun & Hmalloc & Hdev).
  exists t.
  pose proof (construct_no_release c p) as Hrel.
  unfold construct in *. rewrite Hrun in *. auto.
Qed.

Lemma same_bind {A B} (m m' : M A) (k k' : A → M B) d :
  same_run (m d) (m' d) → (∀ a d1, same_run (k a d1) (k' a d1)) →
  same_run ((m ≫= k) d) ((m' ≫= k') d).
Proof.
  unfold same_run, result_of, state_of, calls_of, mbind, M_bind.
  destruct (m d) as [[r d1] t1], (m' d) as [[r' d1'] t1']. cbn.
  intros (-> & -> & ->) Hk. destruct r as [e|a]; cbn; [auto|].
  specialize (Hk a d1).
  destruct (k a d1) as [[r2 d2] t2], (k' a d1) as [[r2' d2'] t2']. cbn in *.
  destruct Hk as (-> & -> & ->). rewrite map_app. auto.
Qed.

Lemma init_step_raise (sleep : Z → M unit) (c : init_cmd) (bs : list Z)
    (d : driver) :
  data c = Some bs → Z.of_nat (length bs) > TRANS_BUFFER_LEN →
  init_step sleep c d =
    (inl SizeViolation, set_trans_mem (store 0 (cmd c)) d,
     [gpio_set_level (dc (cfg d)) 0;
      spi_device_polling_transmit (spi (res d)) 8 [Z.land (cmd c) 0xFF];
      gpio_set_level (dc (cfg d)) 1]).
Proof.
  intros Hdata Hlen. unfold init_step. rewrite Hdata.
  eapply run_eq;
    [ eapply bind_seq; [apply send_cmd_run|];
      eapply bind_raise; apply send_data_raise; exact Hlen
    | reflexivity | reflexivity ].
Qed.

(** Without a scratch buffer the first payload stops the table. *)
Lemma init_step_no_buffer (sleep : Z → M unit) (c : init_cmd) (bs : list Z)
    (d : driver) :
  data c = Some bs → Z.of_nat (length bs) <= TRANS_BUFFER_LEN →
  trans_buffer (res d) = None →
  init_step sleep c d =
    (inl (AttributeError "__dereference__"), set_trans_mem (store 0 (cmd c)) d,
     [gpio_set_level (dc (cfg d)) 0;
      spi_device_polling_transmit (spi (res d)) 8 [Z.land (cmd c) 0xFF];
      gpio_set_level (dc (cfg d)) 1]).
Proof.
  intros Hdata Hlen Htb. unfold init_step. rewrite Hdata.
  eapply run_eq;
    [ eapply bind_seq; [apply send_cmd_run|];
      eapply bind_raise; apply send_data_no_buffer; [exact Hlen | exact Htb]
    | reflexivity | reflexivity ].
Qed.

Lemma same_init_step (c : init_cmd) (d : driver) :
  same_run (init_step (λ ms, call (utime_sleep_ms ms)) c d)
           (init_step (λ ms, call (uasyncio_sleep_ms ms)) c d).
Proof.
  destruct (data c) as [bs|] eqn:Hdata.
  - destruct (decide (Z.of_nat (length bs) > TRANS_BUFFER_LEN)) as [Hlen|Hlen].
    + rewrite !(init_step_raise _ c bs d Hdata Hlen). repeat split.
    + destruct (trans_buffer (res d)) as [tb|] eqn:Htb.
      * rewrite !init_step_run by (eauto || (unfold fits; rewrite Hdata; lia)).
        repeat split. unfold calls_of, step_events. cbn [snd].
        rewrite Hdata. destruct (delay c); reflexivity.
      * rewrite !(init_step_no_buffer _ c bs d Hdata) by (assumption || lia).
        repeat split.
  - unfold init_step. rewrite Hdata. destruct (delay c); repeat split.
Qed.

Lemma same_for_each_init_step (l : list init_cmd) (d : driver) :
  same_run (for_each l (init_step (λ ms, call (utime_sleep_ms ms))) d)
           (for_each l (init_step (λ ms, call (uasyncio_sleep_ms ms))) d).
Proof.
  revert d. induction l as [|c l IH]; intros d; cbn [for_each].
  - repeat split.
  - apply same_bind; [apply same_init_step | intros _ d1; apply IH].
Qed.

(** X5.  [init_async] does what [init] does: same result (also the
    same exception), same final state, and the same calls in the same
    order, with every [utime.sleep_ms] replaced by
    [uasyncio.sleep_ms]. *)
Theorem init_async_same_as_init (d : driver) :
  result_of (init_async d) = result_of (init d) ∧
  state_of (init_async d) = state_of (init d) ∧
  calls_of (init_async d) = map cooperative (calls_of (init d)).
Proof.
  change (same_run (init d) (init_async d)).
  unfold init, init_async, _init, when.
  repeat first
    [ apply same_for_each_init_step
    | match goal with
      | |- same_run ((if ?b then _ else _) _) _ => destruct b
      | |- same_run ((match ?o with _ => _ end) _) _ => destruct o
      end
    | apply same_bind; [|intros ? ?]
    | solve [repeat split] ].
Qed.

Lemma for_each_init_step_raise (sleep : Z → event) (l1 l2 : list init_cmd)
    (c : init_cmd) (bs : list Z) (d : driver) :
  Forall fits l1 → is_Some (trans_buffer (res d)) → data c = Some bs →
  Z.of_nat (length bs) > TRANS_BUFFER_LEN →
  for_each (l1 ++ c :: l2) (init_step (λ ms, call (sleep ms))) d =
    (inl SizeViolation,
     set_trans_mem (λ m, store 0 (cmd c) (foldl after_step m l1)) d,
     flat_map (step_events sleep (dc (cfg d)) (spi (res d))) l1 ++
     [gpio_set_level (dc (cfg d)) 0;
      spi_device_polling_transmit (spi (res d)) 8 [Z.land (cmd c) 0xFF];
      gpio_set_level (dc (cfg d)) 1]).
Proof.
  intros Hl1 Htb Hdata Hlen. revert d Htb.
  induction Hl1 as [|c1 l1 Hc1 Hl1 IH]; intros d Htb;
    cbn [app for_each flat_map foldl].
  - eapply run_eq;
      [ eapply bind_raise; apply (init_step_raise _ c bs d Hdata Hlen)
      | reflexivity | reflexivity ].
  - eapply run_eq;
      [ eapply bind_seq;
          [apply init_step_run; [exact Hc1 | exact Htb] | apply IH; exact Htb]
      | reflexivity | rewrite <- app_assoc; reflexivity ].
Qed.

(** X6.  On an instance that holds its scratch buffer: if the first
    entry of the command table whose payload has more than 16 bytes is
    [c], [init] raises the size error of [send_data] right there: the
    entries before [c] are sent in full, the command byte of [c] is
    sent and the D/C line is raised, and nothing follows: no later
    entry, no backlight, no driver registration. *)
Theorem init_stops_at_oversized_payload
    (d : driver) (l1 l2 : list init_cmd) (c : init_cmd) (bs : list Z) :
  is_Some (trans_buffer (res d)) →
  init_cmds d = Some (l1 ++ c :: l2) → Forall fits l1 →
  data c = Some bs → Z.of_nat (length bs) > 16 →
  init d =
    (inl SizeViolation,
     set_trans_mem (λ m, store 0 (cmd c) (foldl after_step m l1)) d,
     init_prologue utime_sleep_ms (cfg d) ++
     flat_map (step_events utime_sleep_ms (dc (cfg d)) (spi (res d))) l1 ++
     [gpio_set_level (dc (cfg d)) 0;
      spi_device_polling_transmit (spi (res d)) 8 [Z.land (cmd c) 0xFF];
      gpio_set_level (dc (cfg d)) 1]).
Proof.
  intros Htb Hcmds Hl1 Hdata Hlen.
  unfold init, _init, init_prologue, when.
  rewrite self_bind.
  destruct (bool_decide (rst (cfg d) ≠ -1)),
           (bool_decide (backlight (cfg d) ≠ -1)),
           (bool_decide (power (cfg d) ≠ -1));
  (eapply run_eq;
   [ repeat run_step;
     rewrite Hcmds;
     eapply bind_raise;
     apply (for_each_init_step_raise utime_sleep_ms l1 l2 c bs); assumption
   | reflexivity | cbn [app]; rewrite ?app_nil_r, <- ?app_assoc; reflexivity ]).
Qed.

Lemma dc_log_quiet (pin : Z) (t1 t2 : list event) (level : option Z) :
  Forall (λ e, is_spi_transaction e = false) t1 →
  ∃ level', dc_log pin level (t1 ++ t2) = dc_log pin level' t2.
Proof.
  intros H. revert level. induction H as [|e t1 He Ht1 IH]; intros level.
  - exists level. reflexivity.
  - destruct e; try discriminate He; cbn [app dc_log]; apply IH.
Qed.

Lemma dc_log_steps (pin : Z) (h : option Z) (l : list init_cmd)
    (t : list event) (level : option Z) :
  (∀ level', dc_log pin level' t = []) →
  dc_log pin level (flat_map (step_events utime_sleep_ms pin h) l ++ t) =
  flat_map (step_log h) l.
Proof.
  intros Ht. revert level. induction l as [|c l IH]; intros level.
  - apply Ht.
  - cbn [flat_map]. rewrite <- app_assoc.
    unfold step_events at 1, step_log at 1.
    destruct (data c) as [bs|], (delay c) as [ms|];
      cbn [app dc_log]; rewrite ?bool_decide_eq_true_2 by reflexivity;
      cbn [app]; rewrite IH; reflexivity.
Qed.

(** X7.  The D/C line is low for every command byte and high for
    every payload: in [init], on an instance that holds its scratch
    buffer, each table entry is a command byte sent at level 0, then
    its payload (if any) at level 1; in [flush], on every instance, the
    three commands go at level 0 and the two windows and the pixel
    transfer at level 1, whatever the level was before. *)
Theorem dc_line_discipline :
  (∀ d l level, is_Some (trans_buffer (res d)) →
     init_cmds d = Some l → Forall fits l →
     dc_log (dc (cfg d)) level (calls_of (init d)) =
     flat_map (step_log (spi (res d))) l) ∧
  (∀ d a color_p t0 t1 t2 level,
     dc_log (dc (cfg d)) level (calls_of (flush a color_p t0 t1 t2 d)) =
     [ (Some 0, spi_device_polling_transmit (spi (res d)) 8 [0x2A]);
       (Some 1, spi_device_polling_transmit (spi (res d)) 32
          [Z.land (Z.shiftr (x1 a) 8) 0xFF; Z.land (x1 a) 0xFF;
           Z.land (Z.shiftr (x2 a) 8) 0xFF; Z.land (x2 a) 0xFF]);
       (Some 0, spi_device_polling_transmit (spi (res d)) 8 [0x2B]);
       (Some 1, spi_device_polling_transmit (spi (res d)) 32
          [Z.land (Z.shiftr (y1 a) 8) 0xFF; Z.land (y1 a) 0xFF;
           Z.land (Z.shiftr (y2 a) 8) 0xFF; Z.land (y2 a) 0xFF]);
       (Some 0, spi_device_polling_transmit (spi (res d)) 8 [0x2C]);
       (Some 1, spi_device_queue_trans (spi (res d))
          ((x2 a - x1 a + 1) * (y2 a - y1 a + 1) * color_size d * 8) color_p
          ((x2 a - x1 a + 1) * (y2 a - y1 a + 1) * color_size d)) ]).
Proof.
  split.
  - intros d l level Htb Hcmds Hl.
    unfold init. rewrite (_init_run utime_sleep_ms l d Hcmds Hl Htb).
    unfold calls_of, init_events. cbn [snd].
    destruct (dc_log_quiet (dc (cfg d))
                (init_prologue utime_sleep_ms (cfg d))
                (flat_map (step_events utime_sleep_ms (dc (cfg d)) (spi (res d))) l
                 ++ init_epilogue (cfg d)) level) as [level' ->].
    + unfold init_prologue.
      destruct (bool_decide (rst (cfg d) ≠ -1)),
               (bool_decide (backlight (cfg d) ≠ -1)),
               (bool_decide (power (cfg d) ≠ -1));
        repeat (constructor; [reflexivity|]); constructor.
    + apply dc_log_steps. intros lv. unfold init_epilogue.
      destruct (bool_decide (backlight (cfg d) ≠ -1)); reflexivity.
  - intros d a color_p t0 t1 t2 level.
    rewrite (proj2 (flush_calls d a color_p t0 t1 t2)).
    cbn [dc_log]. rewrite !bool_decide_eq_true_2 by reflexivity. reflexivity.
Qed.

(** What [init] does without a scratch buffer, when the first entry of
    the table carries a payload. *)
Lemma init_no_buffer (d : driver) (c : init_cmd) (l : list init_cmd)
    (bs : list Z) :
  trans_buffer (res d) = None → init_cmds d = Some (c :: l) →
  data c = Some bs → Z.of_nat (length bs) <= TRANS_BUFFER_LEN →
  init d =
    (inl (AttributeError "__dereference__"),
     set_trans_mem (store 0 (cmd c)) d,
     init_prologue utime_sleep_ms (cfg d) ++
     [gpio_set_level (dc (cfg d)) 0;
      spi_device_polling_transmit (spi (res d)) 8 [Z.land (cmd c) 0xFF];
      gpio_set_level (dc (cfg d)) 1]).
Proof.
  intros Htb Hcmds Hdata Hlen.
  unfold init, _init, init_prologue, when.
  rewrite self_bind.
  destruct (bool_decide (rst (cfg d) ≠ -1)),
           (bool_decide (backlight (cfg d) ≠ -1)),
           (bool_decide (power (cfg d) ≠ -1));
  (eapply run_eq;
   [ repeat run_step;
     rewrite Hcmds;
     eapply bind_raise; cbn [for_each];
     eapply bind_raise;
     apply (init_step_no_buffer _ c bs); assumption
   | reflexivity | cbn [app]; rewrite ?app_nil_r, <- ?app_assoc; reflexivity ]).
Qed.

(** X8.  On an instance that holds its scratch buffer, when every
    payload of the command table fits it, [init] returns normally; its
    calls are the GPIO set-up and power/reset sequence, the table
    entries in order, then the backlight and the driver registration;
    the only state it changes is the scratch buffer, which each entry
    overwrites in turn.  On an instance torn down by [deinit] there is
    no scratch buffer: [init] raises [AttributeError] at the first
    payload (line 383), after the power/reset sequence and the first
    command byte; the backlight is not switched on and the driver is
    not registered. *)
Theorem init_runs_state_machine (d : driver) (l : list init_cmd) :
  (is_Some (trans_buffer (res d)) → init_cmds d = Some l → Forall fits l →
   init d =
     (inr (), set_trans_mem (λ m, foldl after_step m l) d,
      init_events utime_sleep_ms (cfg d) (spi (res d)) l)) ∧
  (∀ c bs, trans_buffer (res d) = None → init_cmds d = Some (c :: l) →
   data c = Some bs → Z.of_nat (length bs) <= 16 →
   init d =
     (inl (AttributeError "__dereference__"),
      set_trans_mem (store 0 (cmd c)) d,
      init_prologue utime_sleep_ms (cfg d) ++
      [gpio_set_level (dc (cfg d)) 0;
       spi_device_polling_transmit (spi (res d)) 8 [Z.land (cmd c) 0xFF];
       gpio_set_level (dc (cfg d)) 1])).
Proof.
  split.
  - intros Htb Hcmds Hl. apply _init_run; assumption.
  - intros c bs Htb Hcmds Hdata Hlen.
    apply (init_no_buffer d c l bs Htb Hcmds Hdata Hlen).
Qed.

Lemma disp_spi_init_bus_calls (p : platform) (d : driver) :
  List.filter is_bus_initialize (calls_of (disp_spi_init p d)) =
    (if bus_pins (cfg d)
     then [spi_bus_initialize (spihost (cfg d)) (buf_size d)] else []).
Proof.
  unfold disp_spi_init, bus_pins, when. rewrite !self_bind.
  destruct (asynchronous (cfg d)),
    (bool_decide (miso (cfg d) >= 0)), (bool_decide (mosi (cfg d) >= 0)),
    (bool_decide (clk (cfg d) >= 0)),
    (bool_decide (spi_bus_initialize_ret p ≠ 0)),
    (malloc_trans p),
    (bool_decide (spi_bus_add_device_ret p ≠ 0)); reflexivity.
Qed.

(** X9.  [disp_spi_init] initializes the SPI bus exactly when [miso],
    [mosi] and [clk] are all non-negative, once and with [buf_size] as
    the maximal transfer size; otherwise it makes no such call, and its
    outcome depends only on the scratch allocation and on attaching the
    device. *)
Theorem bus_initialized_only_with_all_pins (p : platform) (d : driver) :
  List.filter is_bus_initialize (calls_of (disp_spi_init p d)) =
    (if bus_pins (cfg d)
     then [spi_bus_initialize (spihost (cfg d)) (buf_size d)] else []) ∧
  (bus_pins (cfg d) = false →
   result_of (disp_spi_init p d) =
     match malloc_trans p with
     | None => inl (AttributeError "__dereference__")
     | Some _ =>
         if bool_decide (spi_bus_add_device_ret p ≠ 0)
         then inl TransportFailure_device
         else inr ()
     end).
Proof.
  split; [apply disp_spi_init_bus_calls|].
  intros Hpins. rewrite disp_spi_init_result, Hpins. reflexivity.
Qed.

(** X10.  [deinit] on a constructed instance deregisters the driver,
    stops the event loop unless [asynchronous], polls the transaction
    results at least once, removes the device, frees the bus, and frees
    exactly the buffers the constructor allocated, in this order. *)
Theorem deinit_after_construct
    (c : config) (p : platform) (d : driver) (t : list event) (pending : nat) :
  construct c p = (inr d, t) →
  ∃ b1 tb,
    malloc_buf1 p = Some b1 ∧ malloc_trans p = Some tb ∧
    calls_of (deinit pending d) =
      disp_drv_remove ::
      (if asynchronous c then [] else [lvesp32_deinit]) ++
      pop_trans_results (spi_handle p) pending ++
      [spi_bus_remove_device (spi_handle p); spi_bus_free (Some (spihost c));
       heap_caps_free b1] ++
      (if double_buffer c
       then match malloc_buf2 p with Some b2 => [heap_caps_free b2] | None => [] end
       else []) ++
      [heap_caps_free tb] ∧
    length (pop_trans_results (spi_handle p) pending) = S pending.
Proof.
  intros Hc.
  destruct (construct_inv c p d t Hc)
    as (opcode & Hfac & Hinv & (Hsz & [b1 Hb1] & [tb Htb] & Hbus & Hadd) & Hrot & ->).
  exists b1, tb. split; [exact Hb1|]. split; [exact Htb|]. split.
  - unfold constructed. rewrite Hb1, Htb.
    destruct (asynchronous c) eqn:Ha, (double_buffer c), (malloc_buf2 p) as [b2|];
      unfold deinit, calls_of, mbind, M_bind, self, call, update, when;
      cbn; repeat (rewrite Ha; cbn);
      rewrite ?app_nil_r, <- ?app_assoc; reflexivity.
  - induction pending as [|n IH]; cbn [pop_trans_results length]; congruence.
Qed.

Lemma flush_clock (d : driver) (a : area) (p t0 t1 t2 : Z) :
  clock (state_of (flush a p t0 t1 t2 d)) =
  Timing t2 t1
    (flush_acc_setup_cycles (clock d)
     + (if bool_decide (t1 > t0) then t1 - t0 else 0))
    (flush_acc_dma_cycles (clock d)
     + (if bool_decide (end_time (clock d) ≠ 0)
           && bool_decide (end_time (clock d) > start_time (clock d))
        then end_time (clock d) - start_time (clock d) else 0)) ∧
  mon (state_of (flush a p t0 t1 t2 d)) = mon d ∧
  cycles_in_ms (state_of (flush a p t0 t1 t2 d)) = cycles_in_ms d.
Proof.
  split; [|split; reflexivity].
  change (clock (state_of (flush a p t0 t1 t2 d)))
    with (let k := (if bool_decide (end_time (clock d) ≠ 0)
                       && bool_decide (end_time (clock d) > start_time (clock d))
                    then Timing (start_time (clock d)) (end_time (clock d))
                           (flush_acc_setup_cycles (clock d))
                           (flush_acc_dma_cycles (clock d)
                            + (end_time (clock d) - start_time (clock d)))
                    else clock d) in
          let k1 := (if bool_decide (t1 > t0)
                     then Timing t0 t1 (flush_acc_setup_cycles k + (t1 - t0))
                                 (flush_acc_dma_cycles k)
                     else Timing t0 t1 (flush_acc_setup_cycles k)
                                 (flush_acc_dma_cycles k)) in
          Timing t2 (end_time k1) (flush_acc_setup_cycles k1)
                 (flush_acc_dma_cycles k1)).
  cbv zeta.
  destruct (bool_decide (t1 > t0));
    destruct (bool_decide (end_time (clock d) ≠ 0)
              && bool_decide (end_time (clock d) > start_time (clock d)));
    cbn [flush_acc_dma_cycles flush_acc_setup_cycles end_time];
    f_equal; lia.
Qed.

(** X11.  A [flush] adds to the setup accumulator the cycles between
    its first and second counter reading when the second is the larger,
    and nothing otherwise; it leaves the second reading as the end time
    and the third as the start time.  So a next [flush] with no
    transfer-done interrupt in between adds to the DMA accumulator only
    if that stale end time is not zero and larger than the start time,
    and then their difference. *)
Theorem setup_cycles_accounting
    (d : driver) (a a' : area) (p p' t0 t1 t2 t0' t1' t2' : Z) :
  let d1 := state_of (flush a p t0 t1 t2 d) in
  let d2 := state_of (flush a' p' t0' t1' t2' d1) in
  start_time (clock d1) = t2 ∧ end_time (clock d1) = t1 ∧
  flush_acc_setup_cycles (clock d1) =
    flush_acc_setup_cycles (clock d)
    + (if bool_decide (t1 > t0) then t1 - t0 else 0) ∧
  flush_acc_dma_cycles (clock d2) =
    flush_acc_dma_cycles (clock d1)
    + (if bool_decide (t1 ≠ 0) && bool_decide (t1 > t2) then t1 - t2 else 0).
Proof.
  intros d1 d2. unfold d2.
  destruct (flush_clock d1 a' p' t0' t1' t2') as (-> & _).
  unfold d1. destruct (flush_clock d a p t0 t1 t2) as (-> & _).
  cbn [start_time end_time flush_acc_setup_cycles flush_acc_dma_cycles].
  repeat split; reflexivity.
Qed.

Lemma stat_state (d : driver) :
  state_of (stat d) = d ∨
  state_of (stat d) =
    set_clock (λ k, Timing (start_time k) (end_time k) 0 0)
      (set_mon (λ _, MonitorAcc 0 0 0) d).
Proof.
  unfold stat, floordiv, mbind, M_bind, self. cbn beta iota.
  destruct (bool_decide (monitor_count (mon d) = 0)); [left; reflexivity|].
  cbn beta iota.
  destruct (bool_decide (monitor_count (mon d) * cycles_in_ms d = 0));
    [left | right]; reflexivity.
Qed.

Lemma step_keeps (d : driver) (o : op) :
  accumulators_ok d →
  accumulators_ok (step d o) ∧ cycles_in_ms (step d o) = cycles_in_ms d.
Proof.
  intros (Hs & Hd & Hn). destruct o as [a p t0 t1 t2|t|time px|]; cbn [step].
  - destruct (flush_clock d a p t0 t1 t2) as (Hk & Hm & Hms).
    unfold accumulators_ok. rewrite Hk, Hm, Hms.
    cbn [flush_acc_setup_cycles flush_acc_dma_cycles]. clear Hk Hm Hms.
    split; [|reflexivity].
    split; [|split; [|exact Hn]].
    + case_bool_decide; lia.
    + destruct (bool_decide (end_time (clock d) ≠ 0)); cbn [andb]; [|lia].
      case_bool_decide; lia.
  - split; [|reflexivity]. split; [|split]; assumption.
  - split; [|reflexivity]. unfold accumulators_ok. cbn.
    split; [|split]; try assumption. lia.
  - destruct (stat_state d) as [-> | ->].
    + split; [|reflexivity]. split; [|split]; assumption.
    + split; [|reflexivity]. unfold accumulators_ok. cbn. lia.
Qed.

(** X12.  Whatever sequence of [flush], transfer-done interrupt,
    [monitor] and [stat] calls runs on a driver, with whatever counter
    readings, the two cycle accumulators and the sample count never
    become negative and [cycles_in_ms] does not change; so [stat] then
    returns [None] or non-negative setup and DMA means, and never
    divides by zero. *)
Theorem accumulators_stay_nonnegative (d : driver) (ops : list op) :
  accumulators_ok d → 0 < cycles_in_ms d →
  let d' := foldl step d ops in
  accumulators_ok d' ∧
  (result_of (stat d') = inr None ∨
   ∃ time setup dma px,
     result_of (stat d') = inr (Some (time, setup, dma, px)) ∧
     0 <= setup ∧ 0 <= dma).
Proof.
  intros Hok Hms.
  assert (H : accumulators_ok (foldl step d ops) ∧
              cycles_in_ms (foldl step d ops) = cycles_in_ms d).
  { revert d Hok Hms. induction ops as [|o ops IH]; intros d Hok Hms; cbn [foldl].
    - split; [exact Hok | reflexivity].
    - destruct (step_keeps d o Hok) as (Hok' & Hms').
      destruct (IH (step d o) Hok') as (H1 & H2); [lia|].
      split; [exact H1 | congruence]. }
  cbv zeta. destruct H as ((Hs & Hd & Hn) & Hc).
  split; [split; [|split]; assumption|].
  rewrite stat_result.
  case_bool_decide as H0; [left; reflexivity|]. right.
  rewrite bool_decide_eq_false_2 by nia.
  unfold means_in_ms. do 4 eexists. split; [reflexivity|].
  split; apply Z.div_pos; nia.
Qed.

Lemma frames_sums (frames : list (Z * Z)) (m : monitor_acc) :
  let m' := foldl (λ m f, MonitorAcc (monitor_acc_time m + f.1)
                                     (monitor_acc_px m + f.2)
                                     (monitor_count m + 1)) m frames in
  monitor_acc_time m' = monitor_acc_time m + sum_Z (map fst frames) ∧
  monitor_acc_px m' = monitor_acc_px m + sum_Z (map snd frames).
Proof.
  revert m. induction frames as [|f frames IH]; intros m; cbn [foldl map sum_Z foldr].
  - split; lia.
  - destruct (IH (MonitorAcc (monitor_acc_time m + f.1) (monitor_acc_px m + f.2)
                             (monitor_count m + 1))) as [Ht Hp].
    cbv zeta in *. rewrite Ht, Hp. cbn [monitor_acc_time monitor_acc_px].
    fold (sum_Z (map fst frames)) (sum_Z (map snd frames)). split; lia.
Qed.

(** X13.  After [monitor] was called for the frames [frames] on fresh
    accumulators, the time and the pixel count [stat] returns are the
    sums of the reported times and pixel counts, floor-divided by the
    number of frames. *)
Theorem stat_reports_floor_means (d : driver) (frames : list (Z * Z)) :
  mon d = MonitorAcc 0 0 0 → frames ≠ [] → cycles_in_ms d ≠ 0 →
  ∃ setup dma,
    result_of (stat (state_of (record_frames frames d))) =
    inr (Some (sum_Z (map fst frames) / Z.of_nat (length frames), setup, dma,
               sum_Z (map snd frames) / Z.of_nat (length frames))).
Proof.
  intros Hmon Hne Hms.
  rewrite record_frames_run. unfold state_of. cbn [fst snd].
  rewrite stat_result. cbn [mon set_mon cycles_in_ms].
  rewrite frames_count, Hmon. cbn [monitor_count].
  assert (Hn : 0 + Z.of_nat (length frames) ≠ 0).
  { destruct frames; [congruence | cbn [length]; lia]. }
  rewrite (bool_decide_eq_false_2 _ Hn).
  rewrite bool_decide_eq_false_2 by nia.
  unfold means_in_ms. cbn [mon set_mon].
  destruct (frames_sums frames (MonitorAcc 0 0 0)) as [Ht Hp]. cbv zeta in *.
  rewrite !Hmon, !frames_count, Ht, Hp.
  cbn [monitor_count monitor_acc_time monitor_acc_px].
  rewrite !Z.add_0_l. eauto.
Qed.

Lemma __init___registers (c : config) (p : platform) (opcode : Z) :
  factor c ≠ 0 → invert c = false →
  is_Some (malloc_buf1 p) → lv_color_size p ≠ 0 →
  is_Some (malloc_trans p) →
  (∀ d, cfg d = c → result_of (disp_spi_init p d) = inr ()) →
  ROTATE !! rotation c = Some opcode →
  ∃ t,
    __init__ p (blank c p) = (inr (), constructed c p opcode, t) ∧
    In (disp_buf_init (malloc_buf1 p)
          (if double_buffer c then malloc_buf2 p else None)
          (width c * height c * lv_color_size p / factor c / lv_color_size p)) t ∧
    (bus_pins c = true →
     In (spi_bus_initialize (spihost c)
           (width c * height c * lv_color_size p / factor c)) t).
Proof.
  intros Hfac Hinv [b1 Hb1] Hsz Htb Hspi Hrot.
  unfold __init__, constructed, floordiv, when.
  rewrite self_bind. cbn [cfg blank].
  rewrite Hinv, Hrot, Hb1.
  rewrite (bool_decide_eq_false_2 _ Hfac), (bool_decide_eq_false_2 _ Hsz).
  destruct (double_buffer c), (initialize c); eexists;
  (split;
   [ eapply run_eq;
     [ repeat run_step;
       (eapply bind_seq;
          [apply disp_spi_init_run; apply Hspi; reflexivity|]);
       do 3 run_step;
       first [ apply _init_run;
                 [reflexivity | apply init_table_fits | exact Htb]
             | reflexivity ]
     | reflexivity | reflexivity ]
   | split;
     [ rewrite !in_app_iff;
       repeat first [ left; left; reflexivity | right ]
     | intros Hpins; rewrite !in_app_iff;
       repeat first
         [ left;
           match goal with
           | |- In _ (calls_of (disp_spi_init p ?d)) =>
               apply (proj1 (List.filter_In is_bus_initialize _ _));
               rewrite (disp_spi_init_bus_calls p d);
               cbn [cfg blank set_res set_buf_size set_baked];
               rewrite Hpins; left; reflexivity
           end
         | right ] ] ]).
Qed.

(** X14.  The constructor registers a draw buffer of
    [buf_size // lv.color_t.SIZE] pixels and (when it sets up the bus)
    a maximal transfer size of [buf_size] bytes; a [flush] of an area
    of at most that many pixels queues a transfer of at most [buf_size]
    bytes, to the attached device. *)
Theorem flush_within_max_transfer
    (c : config) (p : platform) (d : driver) (t : list event)
    (a : area) (color_p t0 t1 t2 : Z) :
  construct c p = (inr d, t) → 0 < lv_color_size p →
  (x2 a - x1 a + 1) * (y2 a - y1 a + 1) <= buf_size d / lv_color_size p →
  let n := (x2 a - x1 a + 1) * (y2 a - y1 a + 1) * lv_color_size p in
  In (disp_buf_init (buf1 (res d)) (buf2 (res d))
        (buf_size d / lv_color_size p)) t ∧
  (bus_pins c = true → In (spi_bus_initialize (spihost c) (buf_size d)) t) ∧
  (∃ pre, calls_of (flush a color_p t0 t1 t2 d) =
          pre ++ [spi_device_queue_trans (Some (spi_handle p)) (n * 8) color_p n]) ∧
  n <= buf_size d.
Proof.
  intros Hc Hsize Hpx n.
  destruct (construct_inv c p d t Hc)
    as (opcode & Hfac & Hinv & Hok & Hrot & ->).
  pose proof Hok as (Hsz & Hb1 & Htb & Hbus & Hadd).
  assert (Hspi : ∀ d, cfg d = c → result_of (disp_spi_init p d) = inr ()).
  { apply spi_ok; [|assumption|rewrite Hadd; reflexivity].
    destruct (bus_pins c); cbn [andb]; [rewrite (Hbus eq_refl)|]; reflexivity. }
  destruct (__init___registers c p opcode Hfac Hinv Hb1 Hsz Htb Hspi Hrot)
    as (t' & Hrun & Hbuf & Hbusinit).
  assert (t' = t) as ->.
  { unfold construct in Hc. rewrite Hrun in Hc. congruence. }
  cbn [buf_size res constructed buf1 buf2] in *.
  split; [exact Hbuf|]. split; [exact Hbusinit|]. split.
  - rewrite (proj2 (flush_calls _ a color_p t0 t1 t2)).
    cbn [res constructed spi color_size].
    eexists [_; _; _; _; _; _; _; _; _; _; _]. reflexivity.
  - unfold n.
    pose proof (Z.mul_div_le (width c * height c * lv_color_size p / factor c)
                  (lv_color_size p) Hsize).
    nia.
Qed.

Lemma level_of_app (pin : Z) (t1 t2 : list event) (level : option Z) :
  level_of pin level (t1 ++ t2) = level_of pin (level_of pin level t1) t2.
Proof.
  revert level. induction t1 as [|e t1 IH]; intros level; [reflexivity|].
  destruct e; cbn [app level_of]; apply IH.
Qed.

Lemma level_of_steps (pin dcpin : Z) (h : option Z) (l : list init_cmd)
    (level : option Z) :
  dcpin ≠ pin →
  level_of pin level (flat_map (step_events utime_sleep_ms dcpin h) l) = level.
Proof.
  intros Hne. revert level.
  induction l as [|c l IH]; intros level; [reflexivity|].
  cbn [flat_map]. rewrite level_of_app, IH. unfold step_events.
  destruct (data c), (delay c); cbn [app level_of];
    rewrite ?bool_decide_eq_false_2 by exact Hne; reflexivity.
Qed.

(** X15.  With power and backlight pins configured, [power_down]
    drives both to the inverse of their active level and changes
    nothing else; on an instance that holds its scratch buffer, a
    following [init] drives both back to their active level. *)
Theorem power_down_then_init (d : driver) (l : list init_cmd) (level : option Z) :
  is_Some (trans_buffer (res d)) →
  init_cmds d = Some l → Forall fits l →
  power (cfg d) ≠ -1 → backlight (cfg d) ≠ -1 →
  power (cfg d) ≠ backlight (cfg d) → power (cfg d) ≠ dc (cfg d) →
  power (cfg d) ≠ rst (cfg d) →
  power_down d =
    (inr (), d,
     [gpio_set_level (power (cfg d)) (1 - power_on (cfg d));
      gpio_set_level (backlight (cfg d)) (1 - backlight_on (cfg d))]) ∧
  level_of (power (cfg d)) level (calls_of (power_down d))
    = Some (1 - power_on (cfg d)) ∧
  level_of (backlight (cfg d)) level (calls_of (power_down d))
    = Some (1 - backlight_on (cfg d)) ∧
  level_of (power (cfg d)) level (calls_of (power_down d) ++ calls_of (init d))
    = Some (power_on (cfg d)) ∧
  level_of (backlight (cfg d)) level (calls_of (power_down d) ++ calls_of (init d))
    = Some (backlight_on (cfg d)).
Proof.
  intros Htb Hcmds Hl Hp Hb Hpb Hpd Hpr.
  assert (Hdown : power_down d =
    (inr (), d,
     [gpio_set_level (power (cfg d)) (1 - power_on (cfg d));
      gpio_set_level (backlight (cfg d)) (1 - backlight_on (cfg d))])).
  { unfold power_down, when. rewrite self_bind.
    rewrite (bool_decide_eq_true_2 _ Hp), (bool_decide_eq_true_2 _ Hb).
    reflexivity. }
  split; [exact Hdown|].
  unfold init. rewrite (_init_run utime_sleep_ms l d Hcmds Hl Htb), Hdown.
  unfold calls_of. cbn [snd].
  unfold init_events, init_prologue, init_epilogue.
  rewrite (bool_decide_eq_true_2 _ Hp), (bool_decide_eq_true_2 _ Hb).
  assert (Hbp : backlight (cfg d) ≠ power (cfg d)) by congruence.
  assert (Hdp : dc (cfg d) ≠ power (cfg d)) by congruence.
  assert (Hrp : rst (cfg d) ≠ power (cfg d)) by congruence.
  repeat split.
  - cbn [level_of].
    rewrite (bool_decide_eq_true_2 (power (cfg d) = power (cfg d))) by reflexivity.
    rewrite (bool_decide_eq_false_2 _ Hbp). reflexivity.
  - cbn [level_of].
    rewrite (bool_decide_eq_true_2 (backlight (cfg d) = backlight (cfg d)))
      by reflexivity.
    reflexivity.
  - rewrite !level_of_app.
    rewrite (level_of_steps _ _ _ _ _ Hdp).
    destruct (bool_decide (rst (cfg d) ≠ -1)); cbn [app level_of];
      rewrite ?(bool_decide_eq_false_2 _ Hbp), ?(bool_decide_eq_false_2 _ Hrp),
        ?(bool_decide_eq_false_2 _ Hdp),
        ?(bool_decide_eq_true_2 (power (cfg d) = power (cfg d))) by reflexivity;
      reflexivity.
  - rewrite !level_of_app. cbn [level_of].
    rewrite (bool_decide_eq_true_2 (backlight (cfg d) = backlight (cfg d)))
      by reflexivity.
    reflexivity.
Qed.

(** [init] on the default board, whose table fits, and on the same
    board after [deinit]. *)
Lemma init_runs_state_machine_witness :
  result_of (init booted) = inr () ∧
  init torn_down =
    (inl (AttributeError "__dereference__"),
     set_trans_mem (store 0 0xEF) torn_down,
     [gpio_pad_select_gpio 12; gpio_pad_select_gpio 4; gpio_pad_select_gpio 15;
      gpio_pad_select_gpio 14; gpio_set_direction 12 OUTPUT;
      gpio_set_direction 4 OUTPUT; gpio_set_direction 15 OUTPUT;
      gpio_set_direction 14 OUTPUT; gpio_set_level 14 0; utime_sleep_ms 100;
      gpio_set_level 4 0; utime_sleep_ms 100; gpio_set_level 4 1;
      utime_sleep_ms 100;
      gpio_set_level 12 0;
      spi_device_polling_transmit None 8 [0xEF];
      gpio_set_level 12 1]).
Proof.
  split.
  - refine (f_equal result_of
              (proj1 (init_runs_state_machine booted (init_table 0x18)) _ _ _)).
    + vm_compute. eexists. reflexivity.
    + reflexivity.
    + unfold init_table.
      repeat (apply List.Forall_cons; [unfold fits, TRANS_BUFFER_LEN; cbn; lia|]).
      apply List.Forall_nil.
  - refine (proj2 (init_runs_state_machine torn_down (tail (init_table 0x18)))
              (InitCmd 0xEF (Some [0]) None) [0] _ _ _ _).
    + reflexivity.
    + reflexivity.
    + reflexivity.
    + vm_compute. discriminate.
Defined.

(** [init] with a 17-byte payload in the second entry stops after the
    command byte of that entry. *)
Lemma init_stops_at_oversized_payload_witness :
  calls_of (init oversized) =
    [gpio_pad_select_gpio 12; gpio_pad_select_gpio 4; gpio_pad_select_gpio 15;
     gpio_pad_select_gpio 14; gpio_set_direction 12 OUTPUT;
     gpio_set_direction 4 OUTPUT; gpio_set_direction 15 OUTPUT;
     gpio_set_direction 14 OUTPUT; gpio_set_level 14 0; utime_sleep_ms 100;
     gpio_set_level 4 0; utime_sleep_ms 100; gpio_set_level 4 1;
     utime_sleep_ms 100;
     gpio_set_level 12 0;
     spi_device_polling_transmit (Some 0x3FFC1000) 8 [0x2A];
     gpio_set_level 12 1;
     spi_device_polling_transmit (Some 0x3FFC1000) 8 [0];
     gpio_set_level 12 0;
     spi_device_polling_transmit (Some 0x3FFC1000) 8 [0x2C];
     gpio_set_level 12 1].
Proof.
  refine (f_equal calls_of
            (init_stops_at_oversized_payload oversized
               [InitCmd 0x2A (Some [0]) None] [InitCmd 0x29 None (Some 120)]
               (InitCmd 0x2C (Some (replicate 17 0xAA)) None)
               (replicate 17 0xAA) _ _ _ _ _)).
  - vm_compute. eexists. reflexivity.
  - reflexivity.
  - apply List.Forall_cons; [unfold fits, TRANS_BUFFER_LEN; cbn; lia|].
    apply List.Forall_nil.
  - reflexivity.
  - vm_compute. reflexivity.
Defined.

(** D/C levels of a two-byte payload, and of the aborted run. *)
Lemma dc_line_discipline_witness :
  dc_log 12 None (calls_of (init oversized)) =
    [ (Some 0, spi_device_polling_transmit (Some 0x3FFC1000) 8 [0x2A]);
      (Some 1, spi_device_polling_transmit (Some 0x3FFC1000) 8 [0]);
      (Some 0, spi_device_polling_transmit (Some 0x3FFC1000) 8 [0x2C]) ] ∧
  dc_log 12 None
    (calls_of (init (set_init_cmds [InitCmd 0x2A (Some [0; 1]) None] booted))) =
    [ (Some 0, spi_device_polling_transmit (Some 0x3FFC1000) 8 [0x2A]);
      (Some 1, spi_device_polling_transmit (Some 0x3FFC1000) 16 [0; 1]) ].
Proof.
  split; [reflexivity|].
  refine (proj1 dc_line_discipline
            (set_init_cmds [InitCmd 0x2A (Some [0; 1]) None] booted)
            [InitCmd 0x2A (Some [0; 1]) None] None _ _ _).
  - vm_compute. eexists. reflexivity.
  - reflexivity.
  - apply List.Forall_cons; [unfold fits, TRANS_BUFFER_LEN; cbn; lia|].
    apply List.Forall_nil.
Defined.

(** The default board constructs; without memory the constructor
    raises the allocation error. *)
Lemma construct_returns_iff_witness :
  (∃ d t, construct deferred_config esp32 = (inr d, t)) ∧
  (∃ t, construct default_config exhausted = (inl ResourceExhaustion, t)).
Proof.
  split.
  - apply (proj1 (construct_returns_iff deferred_config esp32)).
    split; [discriminate|]. split; [reflexivity|]. split.
    + unfold platform_ok. cbn. repeat split; eauto; discriminate.
    + eexists. reflexivity.
  - apply (proj2 (construct_returns_iff default_config exhausted)).
    reflexivity.
Defined.

(** [rotation=45] on the default board: three allocations, then the
    error. *)
Lemma rotation_checked_after_allocation_witness :
  ∃ t, construct skewed_config esp32 = (inl ConfigurationError, t) ∧
       List.filter is_malloc t =
         [heap_caps_malloc 28800; heap_caps_malloc 28800; heap_caps_malloc 16].
Proof.
  destruct (rotation_checked_after_allocation skewed_config esp32)
    as (t & Hrun & Hmalloc & _).
  - discriminate.
  - reflexivity.
  - unfold platform_ok. cbn. repeat split; eauto; discriminate.
  - reflexivity.
  - exists t. split; [exact Hrun | exact Hmalloc].
Defined.

(** With [miso=-1] the bus is left alone and the device is attached. *)
Lemma bus_initialized_only_with_all_pins_witness :
  result_of (disp_spi_init esp32 (blank write_only_config esp32)) = inr () ∧
  List.filter is_bus_initialize
    (calls_of (disp_spi_init esp32 (blank write_only_config esp32))) = [].
Proof.
  split.
  - refine (proj2 (bus_initialized_only_with_all_pins esp32
                     (blank write_only_config esp32)) _).
    reflexivity.
  - exact (proj1 (bus_initialized_only_with_all_pins esp32
                    (blank write_only_config esp32))).
Defined.

(** Teardown of the default board with one transfer in flight. *)
Lemma deinit_after_construct_witness :
  calls_of (deinit 1 booted) =
    [disp_drv_remove; lvesp32_deinit;
     spi_device_get_trans_result 0x3FFC1000;
     spi_device_get_trans_result 0x3FFC1000;
     spi_bus_remove_device 0x3FFC1000; spi_bus_free (Some 1);
     heap_caps_free 0x3FFB0000; heap_caps_free 0x3FFB8000;
     heap_caps_free 0x3FFC0000].
Proof.
  destruct (deinit_after_construct deferred_config esp32 booted
              (construct deferred_config esp32).2 1)
    as (b1 & tb & Hb1 & Htb & Hcalls & _).
  - reflexivity.
  - injection Hb1 as <-. injection Htb as <-. exact Hcalls.
Defined.

(** Two frames with an interrupt and a [stat] in between. *)
Lemma accumulators_stay_nonnegative_witness :
  accumulators_ok
    (foldl step booted
       [Flush (Area 0 0 239 59) 0x3FFB0000 1000 1200 2000; Isr 2500;
        Monitor 5 14400; Flush (Area 0 60 239 119) 0x3FFB8000 3000 4000 5000;
        Stat]).
Proof.
  refine (proj1 (accumulators_stay_nonnegative booted
    [Flush (Area 0 0 239 59) 0x3FFB0000 1000 1200 2000; Isr 2500;
     Monitor 5 14400; Flush (Area 0 60 239 119) 0x3FFB8000 3000 4000 5000;
     Stat] _ _)).
  - split; [|split]; vm_compute; discriminate.
  - reflexivity.
Defined.

(** Two frames of 5 ms and 8 ms, 14400 and 1200 pixels. *)
Lemma stat_reports_floor_means_witness :
  ∃ setup dma,
    result_of (stat (state_of (record_frames [(5, 14400); (8, 1200)] booted))) =
    inr (Some (6, setup, dma, 7800)).
Proof.
  refine (stat_reports_floor_means booted [(5, 14400); (8, 1200)] _ _ _).
  - reflexivity.
  - discriminate.
  - vm_compute. discriminate.
Defined.

(** A quarter of the 240x240 screen fills the draw buffer exactly. *)
Lemma flush_within_max_transfer_witness :
  ∃ pre, calls_of (flush (Area 0 0 239 59) 0x3FFB0000 1000 2000 3000 booted) =
         pre ++ [spi_device_queue_trans (Some 0x3FFC1000) 230400 0x3FFB0000 28800].
Proof.
  destruct (flush_within_max_transfer deferred_config esp32 booted
              (construct deferred_config esp32).2
              (Area 0 0 239 59) 0x3FFB0000 1000 2000 3000)
    as (_ & _ & Hdma & _).
  - reflexivity.
  - reflexivity.
  - vm_compute. discriminate.
  - exact Hdma.
Defined.

(** The power pin of the default board, off and on again. *)
Lemma power_down_then_init_witness :
  level_of 14 None (calls_of (power_down booted)) = Some 1 ∧
  level_of 14 None (calls_of (power_down booted) ++ calls_of (init booted))
    = Some 0.
Proof.
  destruct (power_down_then_init booted (init_table 0x18) None)
    as (_ & Hoff & _ & Hon & _).
  - vm_compute. eexists. reflexivity.
  - reflexivity.
  - unfold init_table.
    repeat (apply List.Forall_cons; [unfold fits, TRANS_BUFFER_LEN; cbn; lia|]).
    apply List.Forall_nil.
  - vm_compute. discriminate.
  - vm_compute. discriminate.
  - vm_compute. discriminate.
  - vm_compute. discriminate.
  - vm_compute. discriminate.
  - split; [exact Hoff | exact Hon].
Defined.

End GC9A01.
